(** * Object-Detection: the detection request pipeline

    A shallow embedding of the two services of the repository,

    - [ui-backend/app.py], the ingestion gateway (Flask), and
    - [ai-backend/app.py], the detection service (FastAPI),

    together with the properties their specification states about them.

    Python values are modelled as follows.  A [str] is a [string]; a [dict]
    literal that ends up in a JSON document is a [json] object, an association
    list in insertion order; Python floats are IEEE binary64 numbers, the
    kernel's [PrimFloat.float]; the file system is a finite map from paths to
    file contents; an exception is a value of an error type, and a [try] block
    is a computation in a state-and-error monad whose state survives a raise
    (what was written to disk stays written). *)

From Stdlib Require Import ZArith Ascii String List Lia Bool DecimalString.
From Stdlib Require PrimFloat FloatOps SpecFloat.
From stdpp Require Import gmap strings list.

Local Open Scope Z_scope.

(** ** Python strings *)

Module Py.

(** [c in s] for a one-character [c]. *)
Fixpoint contains (c : ascii) (s : string) : bool :=
  match s with
  | EmptyString => false
  | String a r => Ascii.eqb a c || contains c r
  end.

(** The last position of [c] in [s], if any. *)
Fixpoint rindex (c : ascii) (s : string) : option nat :=
  match s with
  | EmptyString => None
  | String a r =>
      match rindex c r with
      | Some i => Some (S i)
      | None => if Ascii.eqb a c then Some O else None
      end
  end.

(** [s.rfind(c)]: the last position of [c], and [-1] when there is none. *)
Definition rfind (c : ascii) (s : string) : Z :=
  match rindex c s with
  | Some i => Z.of_nat i
  | None => -1
  end.

(** The slices [s[:i]] and [s[i:]] for [0 <= i]. *)
Definition slice_to (i : nat) (s : string) : string := String.substring 0 i s.
Definition slice_from (i : nat) (s : string) : string :=
  String.substring i (String.length s - i) s.

(** [s.rsplit(c, 1)]: split once, at the last [c]. *)
Definition rsplit1 (c : ascii) (s : string) : list string :=
  match rindex c s with
  | Some i => [slice_to i s; slice_from (S i) s]
  | None => [s]
  end.

Definition is_upper (a : ascii) : bool :=
  (65 <=? nat_of_ascii a)%nat && (nat_of_ascii a <=? 90)%nat.

Definition lower_ascii (a : ascii) : ascii :=
  if is_upper a then ascii_of_nat (nat_of_ascii a + 32) else a.

(** [s.lower()].  Characters outside ASCII are bytes above 127 here and are
    left as they are. *)
Fixpoint lower (s : string) : string :=
  match s with
  | EmptyString => EmptyString
  | String a r => String (lower_ascii a) (lower r)
  end.

(** Two strings that differ at most in the case of their ASCII letters. *)
Fixpoint eq_nocase (s t : string) : bool :=
  match s, t with
  | EmptyString, EmptyString => true
  | String a s', String b t' =>
      Ascii.eqb (lower_ascii a) (lower_ascii b) && eq_nocase s' t'
  | _, _ => false
  end.

(** [len(s)]: the number of characters of the text, whose bytes are its
    UTF-8 encoding (a byte [10xxxxxx] continues a character). *)
Definition is_continuation (a : ascii) : bool :=
  (128 <=? nat_of_ascii a)%nat && (nat_of_ascii a <? 192)%nat.

Fixpoint str_len (s : string) : nat :=
  match s with
  | EmptyString => O
  | String a r => ((if is_continuation a then 0 else 1) + str_len r)%nat
  end.

(** The last component of a path, what follows its last [/]; and whether a
    string is made of dots only. *)
Definition basename (p : string) : string :=
  match rindex "/"%char p with
  | Some i => slice_from (S i) p
  | None => p
  end.

Fixpoint all_dots (s : string) : bool :=
  match s with
  | EmptyString => true
  | String a r => Ascii.eqb a "."%char && all_dots r
  end.

(** [s.startswith(p)]. *)
Definition startswith (p s : string) : bool := String.prefix p s.

(** [s.endswith(p)]. *)
Definition endswith (p s : string) : bool :=
  (String.length p <=? String.length s)%nat
  && String.eqb (slice_from (String.length s - String.length p) s) p.

(** The loop of [genericpath._splitext] that skips the leading dots of the
    last path component: from [filenameIndex], is there a character other
    than the dot before [dotIndex]?  [n] is [dotIndex - filenameIndex]. *)
Fixpoint non_dot_before (p : string) (filenameIndex n : nat) : bool :=
  match n with
  | O => false
  | S n' =>
      match String.get filenameIndex p with
      | Some a =>
          if Ascii.eqb a "."%char then non_dot_before p (S filenameIndex) n'
          else true
      | None => false
      end
  end.

(** [os.path.splitext(p)] (posixpath: separator [/], no alternative
    separator, extension separator [.]). *)
Definition splitext (p : string) : string * string :=
  let sepIndex := rfind "/"%char p in
  let dotIndex := rfind "."%char p in
  if sepIndex <? dotIndex then
    let filenameIndex := Z.to_nat (sepIndex + 1) in
    if non_dot_before p filenameIndex (Z.to_nat dotIndex - filenameIndex)
    then (slice_to (Z.to_nat dotIndex) p, slice_from (Z.to_nat dotIndex) p)
    else (p, EmptyString)
  else (p, EmptyString).

(** A natural number in decimal, left-padded with zeros to [width] digits
    ([%02d], [%04d], [%06d]). *)
Definition decimal (n : nat) : string := NilZero.string_of_uint (Nat.to_uint n).

Fixpoint zeros (n : nat) : string :=
  match n with
  | O => EmptyString
  | S n' => String "0"%char (zeros n')
  end.

Definition zero_padded (width n : nat) : string :=
  zeros (width - String.length (decimal n)) +:+ decimal n.

(** [str(z)] for an [int]. *)
Definition str_int (z : Z) : string := NilZero.string_of_int (Z.to_int z).

End Py.

(** ** Python floats

    [float] is IEEE 754 binary64, the kernel's primitive float; [+] and [/]
    are its correctly rounded operations. *)

Module PyFloat.

Abbreviation float := PrimFloat.float.

Definition add (x y : float) : float := PrimFloat.add x y.
Definition div (x y : float) : float := PrimFloat.div x y.
Definition of_int (z : Z) : float := FloatOps.SF2Prim
  (SpecFloat.binary_normalize FloatOps.prec FloatOps.emax z 0 false).

(** The integer nearest to [a / b], ties to the even one ([0 <= a], [0 < b]). *)
Definition half_even_div (a b : Z) : Z :=
  let q := a / b in
  let r := a mod b in
  if 2 * r <? b then q
  else if b <? 2 * r then q + 1
  else if Z.even q then q else q + 1.

(** [m * 2^e * 10^ndigits] rounded to an integer, half to even. *)
Definition scaled (m : positive) (e : Z) (ndigits : nat) : Z :=
  let p := 10 ^ Z.of_nat ndigits in
  if 0 <=? e then Zpos m * 2 ^ e * p
  else half_even_div (Zpos m * p) (2 ^ (- e)).

(** The binary64 number nearest to [(-1)^s * n / d]. *)
Definition of_ratio (s : bool) (n d : positive) : float :=
  FloatOps.SF2Prim
    (SpecFloat.SFdiv FloatOps.prec FloatOps.emax
       (SpecFloat.S754_finite s n 0) (SpecFloat.S754_finite false d 0)).

(** The built-in [round(x, ndigits)] on a float, [0 <= ndigits]: the exact
    value of [x] is rounded to [ndigits] decimals, half to even, and the
    nearest float to that decimal is returned; zeros, infinities and NaN are
    returned as they are. *)
Definition round (x : float) (ndigits : nat) : float :=
  match FloatOps.Prim2SF x with
  | SpecFloat.S754_finite s m e =>
      match scaled m e ndigits with
      | Zpos n => of_ratio s n (Z.to_pos (10 ^ Z.of_nat ndigits))
      | _ => FloatOps.SF2Prim (SpecFloat.S754_zero s)
      end
  | _ => x
  end.

End PyFloat.

(** ** JSON documents and Python dictionaries *)

#[warnings="-register-all"]
Inductive json : Type :=
| JNull
| JBool (b : bool)
| JInt (z : Z)
| JFloat (x : PyFloat.float)
| JStr (s : string)
| JArr (items : list json)
| JObj (fields : list (string * json)).

Module Dict.

(** A [dict] with string keys, in insertion order; keys are unique. *)
Abbreviation t := (list (string * json)).

(** [d.get(k)] *)
Fixpoint get (k : string) (d : t) : option json :=
  match d with
  | [] => None
  | (k', v) :: d' => if String.eqb k' k then Some v else get k d'
  end.

(** [k in d] *)
Definition mem (k : string) (d : t) : bool :=
  match get k d with Some _ => true | None => false end.

(** [d[k] = v]: an existing key keeps its place, a new one goes last. *)
Fixpoint set (k : string) (v : json) (d : t) : t :=
  match d with
  | [] => [(k, v)]
  | (k', v') :: d' =>
      if String.eqb k' k then (k', v) :: d' else (k', v') :: set k v d'
  end.

End Dict.

(** [v[k]] on a JSON value that is expected to be an object. *)
Definition field (k : string) (v : json) : option json :=
  match v with
  | JObj d => Dict.get k d
  | _ => None
  end.

(** [v[a][b]] *)
Definition subfield (a b : string) (v : json) : option json :=
  match field a v with
  | Some x => field b x
  | None => None
  end.

(** No float of the document is NaN or infinite. *)
Fixpoint finite_json (v : json) : bool :=
  match v with
  | JFloat x => PrimFloat.is_finite x
  | JArr items => forallb finite_json items
  | JObj fields =>
      forallb (fun kv => match kv with (_, x) => finite_json x end) fields
  | _ => true
  end.

(** ** Computations that write to a store and may raise

    [M S E A]: from a store, the store afterwards and either the exception
    raised or the value returned.  A raise does not undo what was written. *)

Definition M (S E A : Type) : Type := S -> S * (E + A).

Definition ret {S E A} (a : A) : M S E A := fun s => (s, inr a).

Definition raise {S E A} (e : E) : M S E A := fun s => (s, inl e).

Definition bind {S E A B} (c : M S E A) (k : A -> M S E B) : M S E B :=
  fun s =>
    match c s with
    | (s', inr a) => k a s'
    | (s', inl e) => (s', inl e)
    end.

(** [try: c  except Exception as e: h e] *)
Definition try_except {S E A} (c : M S E A) (h : E -> M S E A) : M S E A :=
  fun s =>
    match c s with
    | (s', inr a) => (s', inr a)
    | (s', inl e) => h e s'
    end.

(** The result of a call that only computes. *)
Definition lift {S E A} (r : E + A) : M S E A := fun s => (s, r).

Definition modify {S E} (f : S -> S) : M S E unit := fun s => (f s, inr tt).

Definition get_state {S E} : M S E S := fun s => (s, inr s).

(** Whether a run returned, and what it returned ([d] if it raised). *)
Definition is_return {E A} (r : E + A) : bool :=
  match r with inr _ => true | inl _ => false end.

Definition returned {E A} (d : A) (r : E + A) : A :=
  match r with inr a => a | inl _ => d end.

Notation "x <- c ;; k" := (bind c (fun x => k))
  (at level 100, c at next level, right associativity).
Notation "'run' c ;; k" := (bind c (fun _ => k))
  (at level 100, c at next level, right associativity).

(** ** Dates *)

Record datetime : Type := {
  year : nat; month : nat; day : nat;
  hour : nat; minute : nat; second : nat;
  microsecond : nat
}.

(** [dt.strftime('%Y%m%d_%H%M%S')], for the years from 1000 on. *)
Definition strftime_stamp (dt : datetime) : string :=
  Py.zero_padded 4 (year dt) +:+ Py.zero_padded 2 (month dt)
  +:+ Py.zero_padded 2 (day dt) +:+ "_"
  +:+ Py.zero_padded 2 (hour dt) +:+ Py.zero_padded 2 (minute dt)
  +:+ Py.zero_padded 2 (second dt).

(** [dt.isoformat()] *)
Definition isoformat (dt : datetime) : string :=
  Py.zero_padded 4 (year dt) +:+ "-" +:+ Py.zero_padded 2 (month dt)
  +:+ "-" +:+ Py.zero_padded 2 (day dt) +:+ "T"
  +:+ Py.zero_padded 2 (hour dt) +:+ ":" +:+ Py.zero_padded 2 (minute dt)
  +:+ ":" +:+ Py.zero_padded 2 (second dt)
  +:+ (if Nat.eqb (microsecond dt) 0 then ""
       else "." +:+ Py.zero_padded 6 (microsecond dt)).

(** ** FastAPI side: the detection service ([ai-backend/app.py]) *)

Module Detector.

(** Exceptions: FastAPI's [HTTPException], and any other exception with the
    text [str] gives for it. *)
Inductive exn : Type :=
| HTTPException (status_code : Z) (detail : string)
| Error (message : string).

(** [str(e)]; for an [HTTPException] the text is its status and detail. *)
Definition str (e : exn) : string :=
  match e with
  | HTTPException status_code detail =>
      Py.str_int status_code +:+ ": " +:+ detail
  | Error message => message
  end.

(** One row of [results.pandas().xyxy[0]]. *)
Record row : Type := {
  name : string;
  confidence : PyFloat.float;
  xmin : PyFloat.float; ymin : PyFloat.float;
  xmax : PyFloat.float; ymax : PyFloat.float
}.

(** What the pipeline reads of a PIL image. *)
Record image : Type := { mode : string; width : Z; height : Z }.

(** [image.convert('RGB')] keeps the size. *)
Definition convert (im : image) (m : string) : image :=
  {| mode := m; width := width im; height := height im |}.

(** What the pipeline reads of the model's output: the table of
    predictions and the rendered picture [results.render()[0]]. *)
Record results : Type := { xyxy : list row; render : list Byte.byte }.

Record UploadFile : Type := {
  filename : string;
  content_type : option string;
  contents : list Byte.byte
}.

(** A file of the results directory.  [JsonFile doc] is the text
    [json.dump(doc, f, indent=4)] writes, which [json.load] reads back as
    [doc]; [Truncated] is a file opened for writing whose write did not
    complete. *)
Inductive file : Type :=
| ImageFile (pixels : list Byte.byte)
| JsonFile (doc : json)
| Truncated.

Abbreviation store := (gmap string file).

(** [json.load] of the file at [p], when it is a complete JSON file. *)
Definition load (fs : store) (p : string) : option json :=
  match fs !! p with
  | Some (JsonFile doc) => Some doc
  | _ => None
  end.

(** What one request meets outside the program: the two readings of the
    clock, and the error, if any, of each write to the results directory. *)
Record world : Type := {
  now_name : datetime;
  now_stamp : datetime;
  save_image_error : option exn;
  open_json_error : option exn;
  dump_json_error : option exn
}.

Definition IMAGES_DIR : string := "static/results/image".
Definition JSON_DIR : string := "static/results/json".

(** [dir / name] for a relative [name]. *)
Definition path (dir name : string) : string := dir +:+ "/" +:+ name.

(** The body of the loop of [parse_results]. *)
Definition detection (idx : nat) (r : row) : json :=
  JObj
    [ ("object_id", JInt (Z.of_nat idx + 1));
      ("class", JStr (name r));
      ("confidence", JFloat (PyFloat.round (confidence r) 4));
      ("bounding_box",
        JObj [ ("x_min", JFloat (PyFloat.round (xmin r) 2));
               ("y_min", JFloat (PyFloat.round (ymin r) 2));
               ("x_max", JFloat (PyFloat.round (xmax r) 2));
               ("y_max", JFloat (PyFloat.round (ymax r) 2)) ]);
      ("center",
        JObj [ ("x", JFloat (PyFloat.round
                 (PyFloat.div (PyFloat.add (xmin r) (xmax r)) (PyFloat.of_int 2)) 2));
               ("y", JFloat (PyFloat.round
                 (PyFloat.div (PyFloat.add (ymin r) (ymax r)) (PyFloat.of_int 2)) 2)) ]) ].

(** [parse_results]: [iterrows] numbers the rows from 0. *)
Definition parse_results (predictions : list row) : list json :=
  imap detection predictions.

(** [f"result_{timestamp}_{base_name}.jpg"] and its [.json] sibling. *)
Definition result_filename_img (f : UploadFile) (w : world) : string :=
  "result_" +:+ strftime_stamp (now_name w) +:+ "_"
  +:+ fst (Py.splitext (filename f)) +:+ ".jpg".

Definition result_filename_json (f : UploadFile) (w : world) : string :=
  "result_" +:+ strftime_stamp (now_name w) +:+ "_"
  +:+ fst (Py.splitext (filename f)) +:+ ".json".

(** Lines 112-113: convert to RGB if necessary. *)
Definition to_rgb (im : image) : image :=
  if negb (String.eqb (mode im) "RGB") then convert im "RGB" else im.

(** The dictionary built at lines 136-148. *)
Definition response_data (f : UploadFile) (w : world) (im : image)
    (detections : list json) : Dict.t :=
  [ ("success", JBool true);
    ("image_name", JStr (filename f));
    ("image_size", JObj [ ("width", JInt (width im));
                          ("height", JInt (height im)) ]);
    ("detections_count", JInt (Z.of_nat (length detections)));
    ("detections", JArr detections);
    ("result_image",
      JStr ("/static/results/image/" +:+ result_filename_img f w));
    ("timestamp", JStr (isoformat (now_stamp w))) ].

(** [img_with_boxes.save(result_path_img)] *)
Definition save (w : world) (p : string) (pixels : list Byte.byte)
  : M store exn unit :=
  match save_image_error w with
  | Some e => raise e
  | None => modify (insert p (ImageFile pixels))
  end.

(** [with open(json_path_str, 'w') as json_file: json.dump(data, json_file, indent=4)] *)
Definition dump (w : world) (p : string) (data : json) : M store exn unit :=
  match open_json_error w with
  | Some e => raise e
  | None =>
      run modify (insert p Truncated) ;;
      match dump_json_error w with
      | Some e => raise e
      | None => modify (insert p (JsonFile data))
      end
  end.

(** [JSONResponse(content=...)] (line 157): the content is rendered when the
    response is built, with [json.dumps(..., allow_nan=False)], which raises
    [ValueError] on a float that is NaN or infinite. *)
Definition JSONResponse (content : json) : exn + json :=
  if finite_json content then inr content
  else inl (Error "Out of range float values are not JSON compliant").

Section Service.

(** [Image.open(io.BytesIO(contents))], and the global [model], which is
    [None] until [load_model] has run. *)
Variable Image_open : list Byte.byte -> exn + image.
Variable model : option (image -> exn + results).

(** The [try] block of [detect_objects]. *)
Definition detect_body (net : image -> exn + results)
    (f : UploadFile) (w : world) : M store exn json :=
  ct <- lift (match content_type f with
              | Some ct => inr ct
              | None => inl (Error "'NoneType' object has no attribute 'startswith'")
              end) ;;
  if negb (Py.startswith "image/" ct) then
    raise (HTTPException 400 "File must be an image")
  else
    im <- lift (Image_open (contents f)) ;;
    let im := to_rgb im in
    res <- lift (net im) ;;
    let detections := parse_results (xyxy res) in
    let result_path_img := path IMAGES_DIR (result_filename_img f w) in
    run save w result_path_img (render res) ;;
    let response_data := response_data f w im detections in
    let json_path := path JSON_DIR (result_filename_json f w) in
    run dump w json_path (JObj response_data) ;;
    let response_data :=
      Dict.set "result_json"
        (JStr ("/static/results/json/" +:+ result_filename_json f w))
        response_data in
    lift (JSONResponse (JObj response_data)).

(** [detect_objects]: the content of the [JSONResponse] it returns, or
    the [HTTPException] it raises. *)
Definition detect_objects (f : UploadFile) (w : world) : M store exn json :=
  match model with
  | None => raise (HTTPException 503 "Model not loaded")
  | Some net =>
      try_except (detect_body net f w)
        (fun e => raise (HTTPException 500 ("Detection failed: " +:+ str e)))
  end.

End Service.

(** The status the client sees: 200 for a returned [JSONResponse], the
    status of a raised [HTTPException], 500 for any other exception. *)
Definition status (r : exn + json) : Z :=
  match r with
  | inr _ => 200
  | inl (HTTPException status_code _) => status_code
  | inl (Error _) => 500
  end.

(** ** The other endpoints of the detection service *)

Definition RESULTS_DIR : string := "static/results".

(** [os.path.exists(p)] in the results tree, for a path without [.] and
    [..] components: [p] is a file of the store, or a directory above one. *)
Definition exists_path (fs : store) (p : string) : bool :=
  existsb (fun k => String.eqb k p || Py.startswith (p +:+ "/") k)
    (elements (dom fs)).

(** [get_result_image] (lines 195-204), for the one path component the route
    [/results/{filename}] binds: the path given to [FileResponse], or the
    404 raised. *)
Definition get_result_image (fs : store) (filename : string) : exn + string :=
  let file_path := path RESULTS_DIR filename in
  if exists_path fs file_path then inr file_path
  else inl (HTTPException 404 "Result image not found").

(** [health_check] (lines 76-84); [gpu_available] is what
    [torch.cuda.is_available()] answers. *)
Definition health_check (model : option (image -> exn + results))
    (gpu_available : bool) : json :=
  JObj [ ("status", JStr "healthy");
         ("model_loaded", JBool (match model with Some _ => true | None => false end));
         ("gpu_available", JBool gpu_available);
         ("results_dir", JStr RESULTS_DIR) ].

(** A results tree that holds nothing but artifacts: every file lies in the
    [image] or in the [json] directory. *)
Definition only_artifacts (fs : store) : Prop :=
  forall k, is_Some (fs !! k) ->
    exists x, k = path IMAGES_DIR x \/ k = path JSON_DIR x.

End Detector.

(** ** Flask side: the ingestion gateway, first part *)

Module Gateway.

(** [app.config['ALLOWED_EXTENSIONS']] *)
Definition ALLOWED_EXTENSIONS : gset string :=
  {[ "png"; "jpg"; "jpeg"; "gif"; "bmp"; "webp" ]}.

(** [app.config['MAX_CONTENT_LENGTH']] *)
Definition MAX_CONTENT_LENGTH : Z := 16 * 1024 * 1024.

(** [allowed_file]: the index [[1]] is only evaluated when the name has a
    dot, in which case [rsplit] returns two parts. *)
Definition allowed_file (filename : string) : bool :=
  Py.contains "."%char filename
  && match Py.rsplit1 "."%char filename !! 1%nat with
     | Some ext => bool_decide (Py.lower ext ∈ ALLOWED_EXTENSIONS)
     | None => false
     end.

(** Exceptions the handler can meet: werkzeug's [RequestEntityTooLarge],
    the exceptions of [requests] ([ConnectTimeout] is a subclass of both
    [ConnectionError] and [Timeout]), and any other exception. *)
Inductive exn : Type :=
| RequestEntityTooLarge
| Timeout (message : string)
| ConnectTimeout (message : string)
| ConnectionError (message : string)
| Error (message : string).

(** [isinstance(e, requests.exceptions.Timeout)] *)
Definition is_Timeout (e : exn) : bool :=
  match e with
  | Timeout _ | ConnectTimeout _ => true
  | _ => false
  end.

(** [isinstance(e, requests.exceptions.ConnectionError)] *)
Definition is_ConnectionError (e : exn) : bool :=
  match e with
  | ConnectionError _ | ConnectTimeout _ => true
  | _ => false
  end.

(** [str(e)] *)
Definition str (e : exn) : string :=
  match e with
  | RequestEntityTooLarge =>
      "413 Request Entity Too Large: The data value transmitted exceeds the capacity limit."
  | Timeout m | ConnectTimeout m | ConnectionError m | Error m => m
  end.

(** An entry of [request.files]. *)
Record FileStorage : Type := {
  filename : string;
  content_type : option string;
  data : list Byte.byte
}.

Record request : Type := {
  content_length : Z;
  files : gmap string FileStorage
}.

(** Reading [request.files]: Flask raises [RequestEntityTooLarge] when the
    request is larger than [MAX_CONTENT_LENGTH]. *)
Definition request_files (r : request) : exn + gmap string FileStorage :=
  if MAX_CONTENT_LENGTH <? content_length r then inl RequestEntityTooLarge
  else inr (files r).

(** The reply of the detection service to [requests.post]: [json_body] is
    what [response.json()] returns, [None] when it raises. *)
Record Response : Type := {
  status_code : Z;
  text : string;
  json_body : option json
}.

(** One call of [requests.post]: the URL and the [files] entry sent. *)
Record posted : Type := {
  url : string;
  sent_name : string;
  sent_bytes : list Byte.byte;
  sent_type : string
}.

(** The gateway's world: the staging directory, and the calls made to the
    detection service so far. *)
Record state : Type := {
  uploads : gmap string (list Byte.byte);
  sent : list posted
}.

(** [jsonify(body), status] *)
Definition reply : Type := json * Z.

Definition UPLOAD_FOLDER : string := "static/uploads".

(** [{"success": False, "error": message}] *)
Definition failure (message : string) : json :=
  JObj [ ("success", JBool false); ("error", JStr message) ].

(** [type(v).__name__] for a value that came out of [response.json()]. *)
Definition type_name (v : json) : string :=
  match v with
  | JNull => "NoneType"
  | JBool _ => "bool"
  | JInt _ => "int"
  | JFloat _ => "float"
  | JStr _ => "str"
  | JArr _ => "list"
  | JObj _ => "dict"
  end.

(** [len(v)] for a value that came out of [response.json()]. *)
Definition len (v : json) : exn + Z :=
  match v with
  | JArr items => inr (Z.of_nat (length items))
  | JObj d => inr (Z.of_nat (length d))
  | JStr s => inr (Z.of_nat (Py.str_len s))
  | _ => inl (Error ("object of type '" +:+ type_name v +:+ "' has no len()"))
  end.

(** [x or default] on an optional string. *)
Definition or_else (x : option string) (default : string) : string :=
  match x with
  | Some (String a r) => String a r
  | _ => default
  end.

(** A request that passes the checks of lines 75-98 with the file [file]. *)
Definition accepted (r : request) (file : FileStorage) : Prop :=
  content_length r <= MAX_CONTENT_LENGTH
  /\ files r !! "image" = Some file
  /\ filename file <> ""
  /\ allowed_file (filename file) = true.

Section Handler.

(** [werkzeug.utils.secure_filename]; what [Image.open] and [verify] find
    in the bytes of a file, [None] when they raise, otherwise the format
    and the size; the error, if any, that writing these bytes at this path
    raises ([OSError]: a name too long for the file system, a full disk);
    the address of the detection service; and the service itself, as
    [requests.post] sees it. *)
Variable secure_filename : string -> string.
Variable Image_probe : list Byte.byte -> option (string * (Z * Z)).
Variable file_save : string -> list Byte.byte -> option exn.
Variable AI_BACKEND_URL : string.
Variable requests_post : posted -> exn + Response.

(** [validate_image]: any exception, a missing file included, gives
    [(False, None, None)]. *)
Definition validate_image (fs : gmap string (list Byte.byte)) (file_path : string)
  : bool * option string * option (Z * Z) :=
  match fs !! file_path with
  | Some bytes =>
      match Image_probe bytes with
      | Some (format, size) => (true, Some format, Some size)
      | None => (false, None, None)
      end
  | None => (false, None, None)
  end.

(** [file.save(filepath)]: the file is written, or the write raises and
    leaves no file. *)
Definition save (filepath : string) (bytes : list Byte.byte) : M state exn unit :=
  match file_save filepath bytes with
  | Some e => raise e
  | None =>
      modify (fun s => {| uploads := <[filepath := bytes]> (uploads s);
                          sent := sent s |})
  end.

(** [os.remove(filepath)] of the file just staged. *)

Definition remove (filepath : string) : M state exn unit :=
  modify (fun s => {| uploads := delete filepath (uploads s); sent := sent s |}).

(** [open(filepath, 'rb')] and the read [requests] makes of it. *)
Definition read (filepath : string) : M state exn (list Byte.byte) :=
  fun s =>
    match uploads s !! filepath with
    | Some bytes => (s, inr bytes)
    | None => (s, inl (Error "No such file or directory"))
    end.

(** [requests.post(f"{AI_BACKEND_URL}/detect", files=files, timeout=30)] *)
Definition post (p : posted) : M state exn Response :=
  fun s =>
    ({| uploads := uploads s; sent := sent s ++ [p] |}, requests_post p).

(** Lines 139-145: fill in the fields the detection service left out. *)
Definition fill_defaults (filename : string) (result : Dict.t) : exn + Dict.t :=
  let result :=
    if negb (Dict.mem "success" result)
    then Dict.set "success" (JBool true) result else result in
  let result :=
    if negb (Dict.mem "image_name" result)
    then Dict.set "image_name" (JStr filename) result else result in
  if negb (Dict.mem "detections_count" result) then
    match len (default (JArr []) (Dict.get "detections" result)) with
    | inr n => inr (Dict.set "detections_count" (JInt n) result)
    | inl e => inl e
    end
  else inr result.

(** The inner [try] of [upload] (lines 124-172). *)
Definition forward (filename filepath : string) (file : FileStorage)
  : M state exn reply :=
  try_except
    ( bytes <- read filepath ;;
      response <- post {| url := AI_BACKEND_URL +:+ "/detect";
                          sent_name := filename;
                          sent_bytes := bytes;
                          sent_type := or_else (content_type file)
                                         "application/octet-stream" |} ;;
      if status_code response =? 200 then
        match json_body response with
        | Some (JObj result) =>
            result <- lift (fill_defaults filename result) ;;
            ret (JObj result, 200)
        | Some v =>
            raise (Error ("'" +:+ type_name v +:+ "' object has no attribute 'get'"))
        | None => raise (Error "Expecting value")
        end
      else
        ret (failure ("AI backend error: " +:+ text response),
             status_code response) )
    (fun e =>
       if is_Timeout e then
         ret (failure "AI backend request timeout", 504)
       else if is_ConnectionError e then
         ret (failure "Cannot connect to AI backend service. Please ensure it's running.", 503)
       else
         ret (failure ("Error communicating with AI backend: " +:+ str e), 500)).

(** [upload]; [now] is the reading of the clock at line 101. *)
Definition upload (r : request) (now : datetime) : M state exn reply :=
  try_except
    ( request_files <- lift (request_files r) ;;
      match request_files !! "image" with
      | None => ret (failure "No image file provided", 400)
      | Some file =>
          if String.eqb (filename file) "" then
            ret (failure "No file selected", 400)
          else if negb (allowed_file (filename file)) then
            ret (failure "Invalid file type. Allowed: png, jpg, jpeg, gif, bmp, webp", 400)
          else
            let timestamp := strftime_stamp now in
            let filename := secure_filename (filename file) in
            let '(base_name, ext) := Py.splitext filename in
            let unique_filename := timestamp +:+ "_" +:+ base_name +:+ ext in
            let filepath := UPLOAD_FOLDER +:+ "/" +:+ unique_filename in
            run save filepath (data file) ;;
            s <- get_state ;;
            let '(is_valid, img_format, img_size) :=
              validate_image (uploads s) filepath in
            if negb is_valid then
              run remove filepath ;;
              ret (failure "Invalid image file", 400)
            else
              forward filename filepath file
      end )
    (fun e => ret (failure ("Internal server error: " +:+ str e), 500)).

(** The call [upload] makes for a staged file: the [files] entry of lines
    126-133. *)
Definition detect_call (file : FileStorage) : posted :=
  {| url := AI_BACKEND_URL +:+ "/detect";
     sent_name := secure_filename (filename file);
     sent_bytes := data file;
     sent_type := or_else (content_type file) "application/octet-stream" |}.

(** Where [upload] stages the file of a request. *)
Definition staged_path (file : FileStorage) (now : datetime) : string :=
  let filename := secure_filename (filename file) in
  UPLOAD_FOLDER +:+ "/" +:+ strftime_stamp now +:+ "_"
  +:+ fst (Py.splitext filename) +:+ snd (Py.splitext filename).

(** A request that [upload] stages: it passes the checks and the write of
    its file succeeds. *)
Definition staged (r : request) (file : FileStorage) (now : datetime) : Prop :=
  accepted r file /\ file_save (staged_path file now) (data file) = None.

End Handler.

(** [health] (lines 51-66): [requests_get] is the outcome of
    [requests.get(f"{AI_BACKEND_URL}/health", timeout=5)] and [now] the
    reading of the clock. *)
Definition health (requests_get : exn + Response) (now : datetime) : reply :=
  let attempt : exn + json :=
    match requests_get with
    | inr response =>
        if status_code response =? 200 then
          match json_body response with
          | Some v => inr v
          | None => inl (Error "Expecting value")
          end
        else inr (JObj [ ("status", JStr "unreachable") ])
    | inl e => inl e
    end in
  let ai_status :=
    match attempt with
    | inr v => v
    | inl e => JObj [ ("status", JStr "unreachable"); ("error", JStr (str e)) ]
    end in
  (JObj [ ("status", JStr "healthy");
          ("service", JStr "UI Backend");
          ("timestamp", JStr (isoformat now));
          ("ai_backend", ai_status) ], 200).

End Gateway.

(** ** Concrete requests

    The inputs at which the properties below are exercised. *)

Module Samples.

Import (notations) PrimFloat.

(** A box whose right edge lies between two hundredths of a pixel. *)
Definition box : Detector.row :=
  {| Detector.name := "cat";
     Detector.confidence := 0.5%float;
     Detector.xmin := 0%float; Detector.ymin := 0%float;
     Detector.xmax := 0.005859375%float; Detector.ymax := 10%float |}.

Definition picture : Detector.image :=
  {| Detector.mode := "RGB"; Detector.width := 640; Detector.height := 480 |}.

(** A decoder that accepts every payload, and a model that finds [box]. *)
Definition decode (_ : list Byte.byte) : Detector.exn + Detector.image :=
  inr picture.

Definition net (_ : Detector.image) : Detector.exn + Detector.results :=
  inr {| Detector.xyxy := [box]; Detector.render := [] |}.

(** Two readings of the clock within one second. *)
Definition noon : datetime :=
  {| year := 2024; month := 1; day := 2;
     hour := 12; minute := 0; second := 0; microsecond := 100 |}.

Definition noon_later : datetime :=
  {| year := 2024; month := 1; day := 2;
     hour := 12; minute := 0; second := 0; microsecond := 900 |}.

(** A request during which every write succeeds, one made later in the
    same second, and one that finds no [json] directory. *)
Definition calm : Detector.world :=
  {| Detector.now_name := noon; Detector.now_stamp := noon;
     Detector.save_image_error := None;
     Detector.open_json_error := None;
     Detector.dump_json_error := None |}.

Definition calm_later : Detector.world :=
  {| Detector.now_name := noon_later; Detector.now_stamp := noon_later;
     Detector.save_image_error := None;
     Detector.open_json_error := None;
     Detector.dump_json_error := None |}.


Definition cat_png : Detector.UploadFile :=
  {| Detector.filename := "cat.png";
     Detector.content_type := Some "image/png";
     Detector.contents := [] |}.

Definition notes_txt : Detector.UploadFile :=
  {| Detector.filename := "notes.txt";
     Detector.content_type := Some "text/plain";
     Detector.contents := [] |}.

(** The run of [cat_png] on an empty results directory, and its body. *)
Definition cat_run : Detector.store * (Detector.exn + json) :=
  Detector.detect_objects decode (Some net) cat_png calm ∅.

Definition cat_body : json := returned JNull (snd cat_run).




(** An upload named [.png]. *)
Definition dot_png : Detector.UploadFile :=
  {| Detector.filename := ".png";
     Detector.content_type := Some "image/png";
     Detector.contents := [] |}.

Definition dot_png_run : Detector.store * (Detector.exn + json) :=
  Detector.detect_objects decode (Some net) dot_png calm ∅.


(** The same upload again, later in the same second. *)
Definition cat_rerun : Detector.store * (Detector.exn + json) :=
  Detector.detect_objects decode (Some net) cat_png calm_later (fst cat_run).


Definition cat_json_path : string :=
  "static/results/json/result_20240102_120000_cat.json".

(** *** The gateway *)

(** Names that [secure_filename] leaves as they are; a probe that takes
    any non-empty file for a 640 x 480 PNG. *)
Definition secure (name : string) : string := name.

Definition probe (bytes : list Byte.byte) : option (string * (Z * Z)) :=
  match bytes with
  | [] => None
  | _ => Some ("PNG", (640, 480))
  end.

Definition backend : string := "http://127.0.0.1:8001".

(** A file system that takes no name above 255 bytes, and a name of 304. *)
Definition disk (filepath : string) (_ : list Byte.byte) : option Gateway.exn :=
  if (255 <? String.length (Py.basename filepath))%nat
  then Some (Gateway.Error
               ("[Errno 36] File name too long: '" +:+ filepath +:+ "'"))
  else None.

Definition long_name : string := Py.zeros 300 +:+ ".png".

(** A detection service that always answers [r], and one that always
    fails with [e]. *)
Definition answers (r : Gateway.Response) (_ : Gateway.posted)
  : Gateway.exn + Gateway.Response := inr r.

Definition fails (e : Gateway.exn) (_ : Gateway.posted)
  : Gateway.exn + Gateway.Response := inl e.

Definition upload_of (name : string) (bytes : list Byte.byte) (size : Z)
  : Gateway.request :=
  {| Gateway.content_length := size;
     Gateway.files :=
       {[ "image" := {| Gateway.filename := name;
                        Gateway.content_type := Some "image/png";
                        Gateway.data := bytes |} ]} |}.

Definition cat_file : Gateway.FileStorage :=
  {| Gateway.filename := "cat.png";
     Gateway.content_type := Some "image/png";
     Gateway.data := [Byte.x89; Byte.x50; Byte.x4e; Byte.x47] |}.

Definition corrupt_file : Gateway.FileStorage :=
  {| Gateway.filename := "cat.png";
     Gateway.content_type := Some "image/png";
     Gateway.data := [] |}.

Definition cat_upload : Gateway.request :=
  upload_of "cat.png" [Byte.x89; Byte.x50; Byte.x4e; Byte.x47] 300.

Definition corrupt_upload : Gateway.request := upload_of "cat.png" [] 300.

Definition txt_upload : Gateway.request :=
  upload_of "notes.txt" [Byte.x68; Byte.x69] 300.

Definition huge_upload : Gateway.request :=
  upload_of "cat.png" [Byte.x89; Byte.x50; Byte.x4e; Byte.x47]
    (16 * 1024 * 1024 + 1).

(** Corrupt uploads: one above the size ceiling, one with the long name;
    and a decodable upload with the long name. *)
Definition huge_corrupt_upload : Gateway.request :=
  upload_of "cat.png" [] (16 * 1024 * 1024 + 1).

Definition long_corrupt_upload : Gateway.request := upload_of long_name [] 300.

Definition long_corrupt_file : Gateway.FileStorage :=
  {| Gateway.filename := long_name;
     Gateway.content_type := Some "image/png";
     Gateway.data := [] |}.

Definition idle : Gateway.state :=
  {| Gateway.uploads := ∅; Gateway.sent := [] |}.

(** A reply with status 201, and one with status 200 that leaves out
    [image_name] and [detections_count]. *)
Definition created : Gateway.Response :=
  {| Gateway.status_code := 201;
     Gateway.text := "created";
     Gateway.json_body := Some (JObj [("success", JBool true)]) |}.

(** A reply with status 200 whose [detections] is a number. *)
Definition numbered : Gateway.Response :=
  {| Gateway.status_code := 200;
     Gateway.text := "ok";
     Gateway.json_body := Some (JObj [ ("detections", JInt 5) ]) |}.

Definition partial_ok : Gateway.Response :=
  {| Gateway.status_code := 200;
     Gateway.text := "ok";
     Gateway.json_body :=
       Some (JObj [ ("success", JBool true);
                    ("detections", JArr [JNull; JNull]) ]) |}.


End Samples.

(** * Facts about the string functions *)

#[local] Arguments String.append : simpl nomatch.

Section StringFacts.

Lemma length_app (a b : string) :
  String.length (a +:+ b) = (String.length a + String.length b)%nat.
Proof. induction a as [|c a IH]; cbn; [done | by rewrite IH]. Qed.

Lemma app_empty_r (a : string) : a +:+ "" = a.
Proof. induction a as [|c a IH]; cbn; [done | by rewrite IH]. Qed.

Lemma app_assoc' (a b c : string) : (a +:+ b) +:+ c = a +:+ b +:+ c.
Proof. induction a as [|x a IH]; cbn; [done | by rewrite IH]. Qed.

Lemma substring_full (s : string) : String.substring 0 (String.length s) s = s.
Proof. induction s as [|c s IH]; cbn; [done | by rewrite IH]. Qed.

Lemma substring_skip (a b : string) (n m : nat) :
  String.substring (String.length a + n) m (a +:+ b) = String.substring n m b.
Proof. induction a as [|c a IH]; cbn; [done | apply IH]. Qed.

(** A string is its two slices at any index. *)
Lemma slice_app (i : nat) (s : string) : Py.slice_to i s +:+ Py.slice_from i s = s.
Proof.
  unfold Py.slice_to, Py.slice_from. revert i.
  induction s as [|c s IH]; intros [|i]; cbn; try done.
  - by rewrite substring_full.
  - by rewrite IH.
Qed.

Lemma slice_from_app (a b : string) : Py.slice_from (String.length a) (a +:+ b) = b.
Proof.
  unfold Py.slice_from. rewrite length_app.
  replace (String.length a + String.length b - String.length a)%nat
    with (String.length b) by lia.
  rewrite <- (Nat.add_0_r (String.length a)) at 1.
  rewrite substring_skip. apply substring_full.
Qed.

Lemma endswith_app (a p : string) : Py.endswith p (a +:+ p) = true.
Proof.
  unfold Py.endswith. rewrite length_app.
  replace (String.length a + String.length p - String.length p)%nat
    with (String.length a) by lia.
  rewrite slice_from_app, String.eqb_refl, andb_true_r.
  apply Nat.leb_le. lia.
Qed.

Lemma rindex_None (c : ascii) (s : string) :
  Py.rindex c s = None <-> Py.contains c s = false.
Proof.
  induction s as [|a s IH]; cbn; [done |].
  destruct (Py.rindex c s) as [i|], (Ascii.eqb a c); cbn;
    intuition congruence.
Qed.

Lemma contains_app (c : ascii) (a b : string) :
  Py.contains c (a +:+ b) = Py.contains c a || Py.contains c b.
Proof.
  induction a as [|x a IH]; cbn; [done |].
  by rewrite IH, orb_assoc.
Qed.

(** The last [c] of [a c b] is the one written, when [b] has none. *)
Lemma rindex_app_sep (c : ascii) (a b : string) :
  Py.contains c b = false ->
  Py.rindex c (a +:+ String c b) = Some (String.length a).
Proof.
  intros Hb. apply rindex_None in Hb.
  induction a as [|x a IH]; cbn.
  - by rewrite Hb, Ascii.eqb_refl.
  - by rewrite IH.
Qed.

Lemma lower_ascii_dot (a : ascii) :
  Ascii.eqb (Py.lower_ascii a) "." = Ascii.eqb a ".".
Proof. by destruct a as [[] [] [] [] [] [] [] []]. Qed.

Lemma contains_dot_lower (s : string) :
  Py.contains "." (Py.lower s) = Py.contains "." s.
Proof.
  induction s as [|a s IH]; cbn; [done |].
  by rewrite lower_ascii_dot, IH.
Qed.

Lemma eq_nocase_lower (s t : string) :
  Py.eq_nocase s t = true -> Py.lower s = Py.lower t.
Proof.
  revert t. induction s as [|a s IH]; intros [|b t]; cbn; try done.
  intros [Hab Hst]%andb_true_iff.
  apply Ascii.eqb_eq in Hab. rewrite Hab. f_equal. by apply IH.
Qed.

(** Where the last [c] of a string is, the string splits around it. *)
Lemma rindex_Some (c : ascii) (s : string) (i : nat) :
  Py.rindex c s = Some i ->
  exists a b, s = a +:+ String c b /\ String.length a = i
              /\ Py.contains c b = false.
Proof.
  revert i. induction s as [|x s IH]; intros i; cbn; [done |].
  destruct (Py.rindex c s) as [j|] eqn:Hj.
  - intros [= <-]. destruct (IH j eq_refl) as (a & b & -> & <- & Hb).
    exists (String x a), b. by cbn.
  - destruct (Ascii.eqb x c) eqn:Hx; [| done]. intros [= <-].
    apply Ascii.eqb_eq in Hx as ->. exists "", s.
    by apply rindex_None in Hj.
Qed.

Lemma substring_0_app (a b : string) :
  String.substring 0 (String.length a) (a +:+ b) = a.
Proof.
  induction a as [|c a IH]; cbn.
  - by destruct b.
  - by rewrite IH.
Qed.

(** What has no [c] after it does not move the last [c]. *)
Lemma rindex_app_no (c : ascii) (a b : string) :
  Py.contains c b = false -> Py.rindex c (a +:+ b) = Py.rindex c a.
Proof.
  intros Hb. induction a as [|x a IH]; cbn.
  - by apply rindex_None.
  - by rewrite IH.
Qed.

Lemma get_app_here (a r : string) (x : ascii) :
  String.get (String.length a) (a +:+ String x r) = Some x.
Proof. induction a as [|y a IH]; cbn; [done | apply IH]. Qed.

(** The loop of [splitext] over the part [b] of [a b c]: it finds a
    character other than the dot unless [b] is made of dots. *)
Lemma non_dot_before_app (a b c : string) :
  Py.non_dot_before (a +:+ b +:+ c) (String.length a) (String.length b)
  = negb (Py.all_dots b).
Proof.
  revert a. induction b as [|x b IH]; intros a; [done |].
  cbn [String.length Py.non_dot_before Py.all_dots].
  change (String x b +:+ c) with (String x (b +:+ c)).
  rewrite get_app_here.
  destruct (Ascii.eqb x ".") eqn:Hx; [| done]. cbn [andb].
  specialize (IH (a +:+ String x "")).
  rewrite length_app in IH. cbn [String.length] in IH.
  rewrite Nat.add_1_r in IH. rewrite <- IH.
  by rewrite app_assoc'.
Qed.

(** [splitext] on a name [stem.ext]: the extension is cut off, unless the
    last component of [stem] is empty or made of dots. *)
Lemma splitext_stem (stem ext : string) :
  Py.contains "." ext = false ->
  Py.contains "/" ext = false ->
  Py.splitext (stem +:+ "." +:+ ext)
  = if Py.all_dots (Py.basename stem)
    then (stem +:+ "." +:+ ext, "")
    else (stem, "." +:+ ext).
Proof.
  intros Hdot Hsep.
  change ("." +:+ ext) with (String "." ext).
  unfold Py.splitext, Py.rfind.
  rewrite rindex_app_sep by done.
  rewrite rindex_app_no by (cbn; by rewrite Hsep).
  unfold Py.basename.
  destruct (Py.rindex "/" stem) as [i|] eqn:Hi.
  - apply rindex_Some in Hi as (a & b & -> & <- & Hb).
    rewrite !length_app. cbn [String.length].
    assert ((Z.of_nat (String.length a)
             <? Z.of_nat (String.length a + S (String.length b))) = true) as ->
      by (apply Z.ltb_lt; lia).
    replace (Z.to_nat (Z.of_nat (String.length a) + 1))
      with (String.length (a +:+ "/")) by (rewrite length_app; cbn; lia).
    replace (Z.to_nat (Z.of_nat (String.length a + S (String.length b)))
             - String.length (a +:+ "/"))%nat
      with (String.length b) by (rewrite length_app; cbn; lia).
    replace (S (String.length a)) with (String.length (a +:+ "/"))
      by (rewrite length_app; cbn; lia).
    change (a +:+ String "/" b) with (a +:+ "/" +:+ b).
    rewrite <- (app_assoc' a "/" b).
    rewrite slice_from_app.
    rewrite (app_assoc' (a +:+ "/") b (String "." ext)).
    rewrite non_dot_before_app.
    destruct (Py.all_dots b); cbn [negb]; [done |].
    rewrite <- (app_assoc' (a +:+ "/") b (String "." ext)).
    rewrite Nat2Z.id.
    replace (String.length a + S (String.length b))%nat
      with (String.length ((a +:+ "/") +:+ b))
      by (rewrite !length_app; cbn; lia).
    unfold Py.slice_to. by rewrite substring_0_app, slice_from_app.
  - assert ((-1 <? Z.of_nat (String.length stem)) = true) as ->
      by (apply Z.ltb_lt; lia).
    change (Z.to_nat (-1 + 1)) with 0%nat. rewrite Nat2Z.id, Nat.sub_0_r.
    pose proof (non_dot_before_app "" stem (String "." ext)) as Hloop.
    cbn [String.length] in Hloop. change ("" +:+ ?x) with x in Hloop.
    rewrite Hloop.
    destruct (Py.all_dots stem); cbn [negb]; [done |].
    unfold Py.slice_to. by rewrite substring_0_app, slice_from_app.
Qed.

(** [splitext] on a name without a dot. *)
Lemma splitext_no_dot (p : string) :
  Py.contains "." p = false -> Py.splitext p = (p, "").
Proof.
  intros Hp%rindex_None. unfold Py.splitext, Py.rfind. rewrite Hp.
  destruct (Py.rindex "/" p) as [i|]; [| done].
  by assert ((Z.of_nat i <? -1) = false) as -> by (apply Z.ltb_ge; lia).
Qed.

(** [splitext] cuts its argument in two and loses nothing. *)
Lemma splitext_app (p : string) :
  fst (Py.splitext p) +:+ snd (Py.splitext p) = p.
Proof.
  unfold Py.splitext.
  repeat case_match; cbn; auto using slice_app, app_empty_r.
Qed.

End StringFacts.

(** * The extension check of the gateway *)

Section AllowedFile.

(** The entries of the allow-list are in lower case and have no dot. *)
Lemma allowed_entry (e : string) :
  e ∈ Gateway.ALLOWED_EXTENSIONS ->
  Py.lower e = e /\ Py.contains "." e = false.
Proof.
  unfold Gateway.ALLOWED_EXTENSIONS. intros He. set_unfold in He.
  repeat destruct He as [He | He]; subst e; by vm_compute.
Qed.

Lemma allowed_file_ext (base ext : string) :
  Py.contains "." ext = false ->
  Gateway.allowed_file (base +:+ "." +:+ ext)
  = bool_decide (Py.lower ext ∈ Gateway.ALLOWED_EXTENSIONS).
Proof.
  intros Hext. unfold Gateway.allowed_file, Py.rsplit1.
  change ("." +:+ ext) with (String "." ext).
  rewrite contains_app, rindex_app_sep by done. cbn.
  rewrite orb_true_r. cbn.
  change (String "." ext) with ("." +:+ ext).
  rewrite <- app_assoc'.
  replace (S (String.length base)) with (String.length (base +:+ "."))
    by (rewrite length_app; cbn; lia).
  by rewrite slice_from_app.
Qed.

(** C10.  The extension check ignores letter case: a name [base.ext] whose
    extension [ext] differs from an entry of the allow-list only in the case
    of its letters is accepted; and a name without a dot is rejected. *)
Theorem allowed_file_case_insensitive :
  (forall base ext entry : string,
      entry ∈ Gateway.ALLOWED_EXTENSIONS ->
      Py.eq_nocase ext entry = true ->
      Gateway.allowed_file (base +:+ "." +:+ ext) = true)
  /\ (forall filename : string,
        Py.contains "." filename = false ->
        Gateway.allowed_file filename = false).
Proof.
  split.
  - intros base ext entry He Hcase.
    destruct (allowed_entry entry He) as [Hlow Hdot].
    apply eq_nocase_lower in Hcase. rewrite Hlow in Hcase.
    rewrite allowed_file_ext.
    + apply bool_decide_eq_true. by rewrite Hcase.
    + by rewrite <- contains_dot_lower, Hcase.
  - intros filename Hdot. unfold Gateway.allowed_file. by rewrite Hdot.
Qed.

(** The check on [photo.PNG] and on [photo]. *)
Lemma allowed_file_case_insensitive_witness :
  Gateway.allowed_file ("photo" +:+ "." +:+ "PNG") = true
  /\ Gateway.allowed_file "photo" = false.
Proof.
  split.
  - apply (proj1 allowed_file_case_insensitive "photo" "PNG" "png").
    + by vm_compute.
    + reflexivity.
  - apply (proj2 allowed_file_case_insensitive "photo"). reflexivity.
Defined.

End AllowedFile.

(** * The detection service *)

Section DetectorFacts.

Variable Image_open : list Byte.byte -> Detector.exn + Detector.image.
Variable model : option (Detector.image -> Detector.exn + Detector.results).

(** The two artifacts of a request have different paths. *)
Lemma image_path_ne_json_path (a b : string) :
  Detector.path Detector.IMAGES_DIR a <> Detector.path Detector.JSON_DIR b.
Proof. unfold Detector.path. cbn. congruence. Qed.

(** Unfold one run of [detect_objects] into the cases of its calls. *)
Ltac detect_cases :=
  cbv [Detector.detect_objects Detector.detect_body try_except bind
       lift raise ret Detector.save Detector.dump Detector.JSONResponse modify];
  repeat case_match; intros; simplify_eq.

(** What a successful run has done. *)
Lemma detect_success (f : Detector.UploadFile) (w : Detector.world)
    (fs fs' : Detector.store) (body : json) :
  Detector.detect_objects Image_open model f w fs = (fs', inr body) ->
  exists net ct im res,
    model = Some net
    /\ Detector.content_type f = Some ct
    /\ Py.startswith "image/" ct = true
    /\ Image_open (Detector.contents f) = inr im
    /\ net (Detector.to_rgb im) = inr res
    /\ let data := Detector.response_data f w (Detector.to_rgb im)
                     (Detector.parse_results (Detector.xyxy res)) in
       let img := Detector.path Detector.IMAGES_DIR (Detector.result_filename_img f w) in
       let js := Detector.path Detector.JSON_DIR (Detector.result_filename_json f w) in
       fs' = <[js := Detector.JsonFile (JObj data)]>
               (<[js := Detector.Truncated]>
                  (<[img := Detector.ImageFile (Detector.render res)]> fs))
       /\ body = JObj (Dict.set "result_json"
                   (JStr ("/static/results/json/" +:+ Detector.result_filename_json f w))
                   data).
Proof.
  detect_cases.
  match goal with H : negb _ = false |- _ => apply negb_false_iff in H end.
  do 4 eexists. repeat split; eauto.
Qed.


(** A payload whose declared type is not an image: the 400 raised at line
    104 is caught at line 159 and leaves as a 500. *)
Lemma detect_non_image (net : Detector.image -> Detector.exn + Detector.results)
    (f : Detector.UploadFile) (w : Detector.world) (fs : Detector.store)
    (ct : string) :
  Detector.content_type f = Some ct ->
  Py.startswith "image/" ct = false ->
  Detector.detect_objects Image_open (Some net) f w fs
  = (fs, inl (Detector.HTTPException 500
                "Detection failed: 400: File must be an image")).
Proof.
  intros Hct Hno. cbv [Detector.detect_objects Detector.detect_body
    try_except bind lift raise]. by rewrite Hct, Hno.
Qed.

(** C3, as the code has it.  After a success the JSON artifact holds the
    returned body without its [result_json] field: the body is the stored
    document with that one field added at the end. *)
Theorem json_artifact_is_body_without_result_json
    (f : Detector.UploadFile) (w : Detector.world)
    (fs fs' : Detector.store) (body : json) :
  Detector.detect_objects Image_open model f w fs = (fs', inr body) ->
  exists doc : Dict.t,
    Detector.load fs'
      (Detector.path Detector.JSON_DIR (Detector.result_filename_json f w))
    = Some (JObj doc)
    /\ body = JObj (doc ++ [("result_json",
                 JStr ("/static/results/json/" +:+ Detector.result_filename_json f w))])
    /\ Dict.get "result_json" doc = None.
Proof.
  intros (net & ct & im & res & _ & _ & _ & _ & _ & -> & ->)%detect_success.
  eexists. unfold Detector.load. rewrite lookup_insert_eq.
  split; [reflexivity |]. split; reflexivity.
Qed.

(** C9, as the code has it.  After a success the annotated image is stored
    under, and returned as, a name that ends in [.jpg], whatever the
    extension of the upload was.  When the upload is named [stem.ext], where
    [ext] has no dot and no slash and the last component of [stem] has a
    character other than the dot, the extension is cut off and the name is
    [result_<timestamp>_<stem>.jpg].  A name whose last component has only
    dots before its last dot, such as [.png], and a name without a dot, are
    kept whole: [result_<timestamp>_<name>.jpg]. *)
Theorem image_artifact_is_jpg (f : Detector.UploadFile) (w : Detector.world)
    (fs fs' : Detector.store) (body : json) :
  Detector.detect_objects Image_open model f w fs = (fs', inr body) ->
  let name := Detector.result_filename_img f w in
  let stamp := strftime_stamp (Detector.now_name w) in
  Py.endswith ".jpg" name = true
  /\ field "result_image" body = Some (JStr ("/static/results/image/" +:+ name))
  /\ (exists px, fs' !! Detector.path Detector.IMAGES_DIR name
                 = Some (Detector.ImageFile px))
  /\ (forall stem ext,
        Detector.filename f = stem +:+ "." +:+ ext ->
        Py.contains "." ext = false -> Py.contains "/" ext = false ->
        Py.all_dots (Py.basename stem) = false ->
        name = "result_" +:+ stamp +:+ "_" +:+ stem +:+ ".jpg")
  /\ (forall stem ext,
        Detector.filename f = stem +:+ "." +:+ ext ->
        Py.contains "." ext = false -> Py.contains "/" ext = false ->
        Py.all_dots (Py.basename stem) = true ->
        name = "result_" +:+ stamp +:+ "_" +:+ Detector.filename f +:+ ".jpg")
  /\ (Py.contains "." (Detector.filename f) = false ->
      name = "result_" +:+ stamp +:+ "_" +:+ Detector.filename f +:+ ".jpg").
Proof.
  intros (net & ct & im & res & _ & _ & _ & _ & _ & -> & ->)%detect_success.
  cbv zeta. split.
  { unfold Detector.result_filename_img.
    rewrite <- !app_assoc'. apply endswith_app. }
  split; [reflexivity |]. split.
  { eexists.
    rewrite !lookup_insert_ne by (symmetry; apply image_path_ne_json_path).
    apply lookup_insert_eq. }
  unfold Detector.result_filename_img.
  split; [| split].
  - intros stem ext -> Hdot Hsep Hstem.
    by rewrite splitext_stem, Hstem.
  - intros stem ext -> Hdot Hsep Hstem.
    by rewrite splitext_stem, Hstem.
  - intros Hdot. by rewrite splitext_no_dot.
Qed.

End DetectorFacts.

(** ** The centre of a box *)

(** C6, as the code has it.  Every detection comes from one row of the
    model's output, in order; its [center] is the midpoint of the row's raw
    corners rounded to 2 decimals, and its [bounding_box] holds the same raw
    corners, each rounded to 2 decimals. *)
Theorem center_is_rounded_raw_midpoint
    (predictions : list Detector.row) (i : nat) (d : json) :
  Detector.parse_results predictions !! i = Some d ->
  exists r : Detector.row,
    predictions !! i = Some r
    /\ subfield "center" "x" d
       = Some (JFloat (PyFloat.round
           (PyFloat.div (PyFloat.add (Detector.xmin r) (Detector.xmax r))
              (PyFloat.of_int 2)) 2))
    /\ subfield "center" "y" d
       = Some (JFloat (PyFloat.round
           (PyFloat.div (PyFloat.add (Detector.ymin r) (Detector.ymax r))
              (PyFloat.of_int 2)) 2))
    /\ subfield "bounding_box" "x_min" d = Some (JFloat (PyFloat.round (Detector.xmin r) 2))
    /\ subfield "bounding_box" "x_max" d = Some (JFloat (PyFloat.round (Detector.xmax r) 2))
    /\ subfield "bounding_box" "y_min" d = Some (JFloat (PyFloat.round (Detector.ymin r) 2))
    /\ subfield "bounding_box" "y_max" d = Some (JFloat (PyFloat.round (Detector.ymax r) 2)).
Proof.
  unfold Detector.parse_results. rewrite list_lookup_imap.
  destruct (predictions !! i) as [r|]; [| discriminate].
  intros [= <-]. exists r. repeat split; reflexivity.
Qed.

(** The detection made of the sample box. *)
Lemma center_is_rounded_raw_midpoint_witness :
  exists r : Detector.row,
    [Samples.box] !! 0%nat = Some r
    /\ subfield "center" "x" (Detector.detection 0 Samples.box)
       = Some (JFloat (PyFloat.round
           (PyFloat.div (PyFloat.add (Detector.xmin r) (Detector.xmax r))
              (PyFloat.of_int 2)) 2))
    /\ subfield "center" "y" (Detector.detection 0 Samples.box)
       = Some (JFloat (PyFloat.round
           (PyFloat.div (PyFloat.add (Detector.ymin r) (Detector.ymax r))
              (PyFloat.of_int 2)) 2))
    /\ subfield "bounding_box" "x_min" (Detector.detection 0 Samples.box)
       = Some (JFloat (PyFloat.round (Detector.xmin r) 2))
    /\ subfield "bounding_box" "x_max" (Detector.detection 0 Samples.box)
       = Some (JFloat (PyFloat.round (Detector.xmax r) 2))
    /\ subfield "bounding_box" "y_min" (Detector.detection 0 Samples.box)
       = Some (JFloat (PyFloat.round (Detector.ymin r) 2))
    /\ subfield "bounding_box" "y_max" (Detector.detection 0 Samples.box)
       = Some (JFloat (PyFloat.round (Detector.ymax r) 2)).
Proof.
  apply (center_is_rounded_raw_midpoint [Samples.box] 0).
  reflexivity.
Defined.

(** C6, as the specification states it, fails: for the box from x = 0 to
    x = 0.005859375 the stored corners are 0.0 and 0.01, whose midpoint
    rounds to 0.01, and the stored centre is 0.0. *)
Lemma center_is_not_midpoint_of_rounded_box :
  exists d x_min x_max cx,
    Detector.parse_results [Samples.box] = [d]
    /\ subfield "bounding_box" "x_min" d = Some (JFloat x_min)
    /\ subfield "bounding_box" "x_max" d = Some (JFloat x_max)
    /\ subfield "center" "x" d = Some (JFloat cx)
    /\ PrimFloat.eqb cx
         (PyFloat.round (PyFloat.div (PyFloat.add x_min x_max) (PyFloat.of_int 2)) 2)
       = false
    /\ PrimFloat.eqb cx PrimFloat.zero = true
    /\ PrimFloat.eqb x_max (PyFloat.of_ratio false 1 100) = true.
Proof.
  do 4 eexists.
  split; [reflexivity |].
  repeat split; by vm_compute.
Qed.

(** A run that returned is the pair of its store and its value. *)
Lemma run_returned {S E A : Type} (d : A) (p : S * (E + A)) :
  is_return (snd p) = true -> p = (fst p, inr (returned d (snd p))).
Proof. by destruct p as [s [e|a]]. Qed.


(** C2 fails on the code: an upload declared as [text/plain] is answered
    with status 500, not 400. *)
Theorem non_image_upload_gets_500 :
  Detector.detect_objects Samples.decode (Some Samples.net)
    Samples.notes_txt Samples.calm ∅
  = (∅, inl (Detector.HTTPException 500
               "Detection failed: 400: File must be an image"))
  /\ Detector.status
       (snd (Detector.detect_objects Samples.decode (Some Samples.net)
               Samples.notes_txt Samples.calm ∅)) = 500.
Proof.
  rewrite (detect_non_image Samples.decode Samples.net Samples.notes_txt
             Samples.calm ∅ "text/plain") by reflexivity.
  split; reflexivity.
Qed.

(** C3, as the specification states it, fails: the returned body has a
    [result_json] field and the document read back from the JSON artifact
    has none. *)
Lemma json_artifact_differs_from_body :
  exists doc,
    snd Samples.cat_run = inr Samples.cat_body
    /\ Detector.load (fst Samples.cat_run) Samples.cat_json_path = Some doc
    /\ field "result_json" Samples.cat_body
       = Some (JStr "/static/results/json/result_20240102_120000_cat.json")
    /\ field "result_json" doc = None
    /\ doc <> Samples.cat_body.
Proof.
  eexists.
  split; [by vm_compute |]. split; [by vm_compute |].
  split; [by vm_compute |]. split; [by vm_compute |].
  intros H. apply (f_equal (field "result_json")) in H.
  vm_compute in H. discriminate H.
Qed.

(** The JSON artifact of the sample run. *)
Lemma json_artifact_is_body_without_result_json_witness :
  exists doc : Dict.t,
    Detector.load (fst Samples.cat_run)
      (Detector.path Detector.JSON_DIR
         (Detector.result_filename_json Samples.cat_png Samples.calm))
    = Some (JObj doc)
    /\ Samples.cat_body
       = JObj (doc ++ [("result_json",
            JStr ("/static/results/json/"
                  +:+ Detector.result_filename_json Samples.cat_png Samples.calm))])
    /\ Dict.get "result_json" doc = None.
Proof.
  apply (json_artifact_is_body_without_result_json Samples.decode
           (Some Samples.net) Samples.cat_png Samples.calm ∅).
  apply (run_returned JNull Samples.cat_run). vm_compute. reflexivity.
Defined.

(** The image artifact of the sample run: [cat.png] gives [..._cat.jpg]. *)
Lemma image_artifact_is_jpg_witness :
  Py.endswith ".jpg"
    (Detector.result_filename_img Samples.cat_png Samples.calm) = true
  /\ Detector.result_filename_img Samples.cat_png Samples.calm
     = "result_" +:+ strftime_stamp Samples.noon +:+ "_" +:+ "cat" +:+ ".jpg".
Proof.
  destruct (image_artifact_is_jpg Samples.decode (Some Samples.net)
              Samples.cat_png Samples.calm ∅ (fst Samples.cat_run)
              Samples.cat_body)
    as (Hend & _ & _ & Hcut & _).
  - apply (run_returned JNull Samples.cat_run). vm_compute. reflexivity.
  - split; [exact Hend |].
    apply (Hcut "cat" "png"); reflexivity.
Defined.

(** C9, as the specification states it, fails: an upload named [.png],
    which the gateway's own check takes for a name with the extension
    [png], succeeds, and its image artifact keeps the whole name, extension
    included. *)
Lemma dot_png_keeps_its_extension :
  Gateway.allowed_file (Detector.filename Samples.dot_png) = true
  /\ Detector.filename Samples.dot_png = "" +:+ "." +:+ "png"
  /\ Detector.status (snd Samples.dot_png_run) = 200
  /\ Detector.result_filename_img Samples.dot_png Samples.calm
     = "result_20240102_120000_.png.jpg"
  /\ fst Samples.dot_png_run
     !! "static/results/image/result_20240102_120000_.png.jpg"
     = Some (Detector.ImageFile []).
Proof. repeat split; by vm_compute. Qed.

(** C4 fails on the code: two uploads of [cat.png] within one second get
    the same two artifact names, and the second run replaces the files of
    the first (the results directory still holds two files, and the JSON
    file now carries the later timestamp). *)
Theorem same_second_uploads_collide :
  Samples.noon <> Samples.noon_later
  /\ Detector.result_filename_img Samples.cat_png Samples.calm
     = Detector.result_filename_img Samples.cat_png Samples.calm_later
  /\ Detector.result_filename_json Samples.cat_png Samples.calm
     = Detector.result_filename_json Samples.cat_png Samples.calm_later
  /\ Detector.status (snd Samples.cat_run) = 200
  /\ Detector.status (snd Samples.cat_rerun) = 200
  /\ size (fst Samples.cat_run) = 2%nat
  /\ size (fst Samples.cat_rerun) = 2%nat
  /\ (Detector.load (fst Samples.cat_run) Samples.cat_json_path
        ≫= field "timestamp") = Some (JStr "2024-01-02T12:00:00.000100")
  /\ (Detector.load (fst Samples.cat_rerun) Samples.cat_json_path
        ≫= field "timestamp") = Some (JStr "2024-01-02T12:00:00.000900").
Proof.
  split; [discriminate |].
  repeat split; by vm_compute.
Qed.

(** * The gateway *)

Section DictFacts.

Lemma get_after_set (k : string) (v : json) (d : Dict.t) :
  Dict.get k (Dict.set k v d) = Some v.
Proof.
  induction d as [|[k' v'] d IH]; cbn.
  - by rewrite String.eqb_refl.
  - destruct (String.eqb k' k) eqn:E; cbn; by rewrite E.
Qed.

Lemma get_after_set_other (k k' : string) (v : json) (d : Dict.t) :
  k <> k' -> Dict.get k' (Dict.set k v d) = Dict.get k' d.
Proof.
  intros Hne. induction d as [|[k0 v0] d IH]; cbn.
  - by apply String.eqb_neq in Hne as ->.
  - destruct (String.eqb k0 k) eqn:E; cbn.
    + apply String.eqb_eq in E as ->.
      by apply String.eqb_neq in Hne as ->.
    + by rewrite IH.
Qed.

Lemma mem_false (k : string) (d : Dict.t) :
  Dict.mem k d = false <-> Dict.get k d = None.
Proof. unfold Dict.mem. by destruct (Dict.get k d). Qed.

Lemma mem_after_set (k : string) (v : json) (d : Dict.t) :
  Dict.mem k (Dict.set k v d) = true.
Proof. unfold Dict.mem. by rewrite get_after_set. Qed.

Lemma mem_after_set_other (k k' : string) (v : json) (d : Dict.t) :
  k <> k' -> Dict.mem k' (Dict.set k v d) = Dict.mem k' d.
Proof. intros Hne. unfold Dict.mem. by rewrite get_after_set_other. Qed.

(** Setting an absent key keeps every binding. *)
Lemma set_absent_keeps (k k' : string) (v x : json) (d : Dict.t) :
  Dict.mem k d = false ->
  Dict.get k' d = Some x -> Dict.get k' (Dict.set k v d) = Some x.
Proof.
  intros Hk%mem_false Hx.
  destruct (String.eqb_spec k k') as [-> | Hne]; [congruence |].
  by rewrite get_after_set_other.
Qed.

End DictFacts.

Section GatewayFacts.

Variable secure_filename : string -> string.
Variable Image_probe : list Byte.byte -> option (string * (Z * Z)).
Variable file_save : string -> list Byte.byte -> option Gateway.exn.
Variable AI_BACKEND_URL : string.
Variable requests_post : Gateway.posted -> Gateway.exn + Gateway.Response.

#[local] Abbreviation upload :=
  (Gateway.upload secure_filename Image_probe file_save AI_BACKEND_URL
     requests_post).
#[local] Abbreviation staged :=
  (Gateway.staged secure_filename file_save).
#[local] Abbreviation forward :=
  (Gateway.forward AI_BACKEND_URL requests_post).
#[local] Abbreviation staged_path := (Gateway.staged_path secure_filename).
#[local] Abbreviation detect_call :=
  (Gateway.detect_call secure_filename AI_BACKEND_URL).

(** [fill_defaults] keeps what the detection service sent. *)
Lemma fill_defaults_keeps (name : string) (d d' : Dict.t) :
  Gateway.fill_defaults name d = inr d' ->
  forall k x, Dict.get k d = Some x -> Dict.get k d' = Some x.
Proof.
  unfold Gateway.fill_defaults. intros H k x Hx.
  repeat case_match; simplify_eq;
    repeat match goal with
    | H : negb _ = true |- _ => apply negb_true_iff in H
    end;
    auto using set_absent_keeps.
Qed.

(** It touches no other field than the three it may add. *)
Lemma fill_defaults_only (name : string) (d d' : Dict.t) :
  Gateway.fill_defaults name d = inr d' ->
  forall k, k <> "success" -> k <> "image_name" -> k <> "detections_count" ->
    Dict.get k d' = Dict.get k d.
Proof.
  unfold Gateway.fill_defaults. intros H k H1 H2 H3.
  repeat case_match; simplify_eq;
    rewrite ?get_after_set_other by done; done.
Qed.

(** What it returns has the three fields. *)
Lemma fill_defaults_fills (name : string) (d d' : Dict.t) :
  Gateway.fill_defaults name d = inr d' ->
  Dict.mem "success" d' = true
  /\ Dict.mem "image_name" d' = true
  /\ Dict.mem "detections_count" d' = true.
Proof.
  unfold Gateway.fill_defaults.
  destruct (Dict.mem "success" d) eqn:E1; cbn [negb];
    destruct (Dict.mem "image_name" _) eqn:E2; cbn [negb];
    destruct (Dict.mem "detections_count" _) eqn:E3; cbn [negb];
    try destruct (Gateway.len _); intros [= <-];
    repeat first
      [ rewrite mem_after_set in *
      | rewrite mem_after_set_other in * by done ];
    auto.
Qed.

(** The only exception it raises is that of [len]. *)
Lemma fill_defaults_error (name : string) (d : Dict.t) (e : Gateway.exn) :
  Gateway.fill_defaults name d = inl e ->
  exists message, e = Gateway.Error message.
Proof.
  unfold Gateway.fill_defaults, Gateway.len.
  repeat case_match; intros; simplify_eq; eauto.
Qed.

(** How it runs: the first two fields never fail, the count may. *)
Lemma fill_defaults_run (name : string) (d : Dict.t) :
  exists d0,
    Gateway.fill_defaults name d
    = if Dict.mem "detections_count" d then inr d0
      else match Gateway.len (default (JArr []) (Dict.get "detections" d)) with
           | inr n => inr (Dict.set "detections_count" (JInt n) d0)
           | inl e => inl e
           end.
Proof.
  unfold Gateway.fill_defaults.
  destruct (Dict.mem "success" d); cbn [negb];
    destruct (Dict.mem "image_name" _); cbn [negb];
    rewrite ?mem_after_set_other by done;
    destruct (Dict.mem "detections_count" d); cbn [negb];
    unfold Dict.mem; rewrite ?get_after_set_other by done; eauto.
Qed.

(** It returns exactly when the count is there or can be taken. *)
Lemma fill_defaults_returns (name : string) (d : Dict.t) :
  is_return (Gateway.fill_defaults name d)
  = Dict.mem "detections_count" d
    || is_return (Gateway.len (default (JArr []) (Dict.get "detections" d))).
Proof.
  destruct (fill_defaults_run name d) as [d0 ->].
  destruct (Dict.mem "detections_count" d); [done |].
  by destruct (Gateway.len _).
Qed.

(** The inner [try] always returns a reply. *)
Lemma forward_returns (name filepath : string) (file : Gateway.FileStorage)
    (s : Gateway.state) :
  is_return (snd (forward name filepath file s)) = true.
Proof.
  cbv [Gateway.forward try_except bind lift raise ret Gateway.read Gateway.post].
  repeat case_match; simplify_eq; done.
Qed.

(** An accepted request whose file cannot be written is answered with
    500, and nothing is staged or sent. *)
Lemma upload_save_fails (r : Gateway.request) (now : datetime)
    (s : Gateway.state) (file : Gateway.FileStorage) (e : Gateway.exn) :
  Gateway.accepted r file ->
  file_save (staged_path file now) (Gateway.data file) = Some e ->
  upload r now s
  = (s, inr (Gateway.failure ("Internal server error: " +:+ Gateway.str e), 500)).
Proof.
  intros (Hlen & Hfile & Hname & Hext) Hsave.
  apply String.eqb_neq in Hname. apply Z.ltb_ge in Hlen.
  revert Hsave.
  cbv [Gateway.upload try_except bind lift raise ret Gateway.request_files
       Gateway.save Gateway.staged_path].
  rewrite Hlen, Hfile, Hname, Hext. cbn [negb].
  destruct (Py.splitext (secure_filename (Gateway.filename file)))
    as [base_name ext]. cbn [fst snd].
  by intros ->.
Qed.

(** A staged request is probed, and either removed or forwarded. *)
Lemma upload_accepted (r : Gateway.request) (now : datetime)
    (s : Gateway.state) (file : Gateway.FileStorage) :
  staged r file now ->
  upload r now s =
    let filepath := staged_path file now in
    let staged := <[filepath := Gateway.data file]> (Gateway.uploads s) in
    match Image_probe (Gateway.data file) with
    | None =>
        ({| Gateway.uploads := delete filepath staged;
            Gateway.sent := Gateway.sent s |},
         inr (Gateway.failure "Invalid image file", 400))
    | Some _ =>
        forward (secure_filename (Gateway.filename file)) filepath file
          {| Gateway.uploads := staged; Gateway.sent := Gateway.sent s |}
    end.
Proof.
  intros [(Hlen & Hfile & Hname & Hext) Hsave].
  apply String.eqb_neq in Hname. apply Z.ltb_ge in Hlen.
  pose proof (forward_returns (secure_filename (Gateway.filename file))
                (staged_path file now) file
                {| Gateway.uploads :=
                     <[staged_path file now := Gateway.data file]> (Gateway.uploads s);
                   Gateway.sent := Gateway.sent s |}) as Hret.
  revert Hret Hsave.
  cbv [Gateway.upload try_except bind lift raise ret Gateway.request_files
       Gateway.save Gateway.remove modify get_state Gateway.validate_image
       Gateway.staged_path].
  rewrite Hlen, Hfile, Hname, Hext. cbn [negb].
  destruct (Py.splitext (secure_filename (Gateway.filename file)))
    as [base_name ext]. cbn [fst snd Gateway.uploads Gateway.sent].
  intros Hret ->. cbn [fst snd Gateway.uploads Gateway.sent].
  rewrite lookup_insert_eq.
  destruct (Image_probe (Gateway.data file)) as [[format size]|]; cbn [negb].
  - destruct (Gateway.forward _ _ _ _ _ _) as [s' [e|rep]]; [discriminate | done].
  - done.
Qed.

(** And a forwarded request makes exactly one call. *)
Lemma forward_staged (name filepath : string) (file : Gateway.FileStorage)
    (s : Gateway.state) (bytes : list Byte.byte) :
  Gateway.uploads s !! filepath = Some bytes ->
  let p := {| Gateway.url := AI_BACKEND_URL +:+ "/detect";
              Gateway.sent_name := name;
              Gateway.sent_bytes := bytes;
              Gateway.sent_type :=
                Gateway.or_else (Gateway.content_type file)
                  "application/octet-stream" |} in
  fst (forward name filepath file s)
  = {| Gateway.uploads := Gateway.uploads s;
       Gateway.sent := Gateway.sent s ++ [p] |}
  /\ snd (forward name filepath file s)
     = match requests_post p with
       | inr response =>
           if Gateway.status_code response =? 200 then
             match Gateway.json_body response with
             | Some (JObj result) =>
                 match Gateway.fill_defaults name result with
                 | inr result => inr (JObj result, 200)
                 | inl e =>
                     inr (Gateway.failure
                            ("Error communicating with AI backend: "
                             +:+ Gateway.str e), 500)
                 end
             | Some v =>
                 inr (Gateway.failure
                        ("Error communicating with AI backend: "
                         +:+ "'" +:+ Gateway.type_name v
                         +:+ "' object has no attribute 'get'"), 500)
             | None =>
                 inr (Gateway.failure
                        ("Error communicating with AI backend: "
                         +:+ "Expecting value"), 500)
             end
           else
             inr (Gateway.failure
                    ("AI backend error: " +:+ Gateway.text response),
                  Gateway.status_code response)
       | inl e =>
           if Gateway.is_Timeout e then
             inr (Gateway.failure "AI backend request timeout", 504)
           else if Gateway.is_ConnectionError e then
             inr (Gateway.failure
                    "Cannot connect to AI backend service. Please ensure it's running.",
                  503)
           else
             inr (Gateway.failure
                    ("Error communicating with AI backend: "
                     +:+ Gateway.str e), 500)
       end.
Proof.
  intros Hread p. subst p.
  cbv [Gateway.forward try_except bind lift raise ret Gateway.read Gateway.post].
  rewrite Hread.
  destruct (requests_post _) as [e|response].
  - by destruct (Gateway.is_Timeout e), (Gateway.is_ConnectionError e).
  - destruct (Gateway.status_code response =? 200); [| done].
    destruct (Gateway.json_body response) as [[| | | | | |result]|]; try done.
    destruct (Gateway.fill_defaults name result) as [e|filled] eqn:Hfill;
      [apply fill_defaults_error in Hfill as [message ->] |]; done.
Qed.

(** C7, as the code has it.  An upload within the size ceiling, with an
    allowed extension, whose file was staged and whose bytes do not decode is
    answered with 400, and the file staged for it is no longer in the staging
    directory; nothing else there has changed and nothing was forwarded. *)
Theorem corrupt_upload_is_rejected_and_removed
    (r : Gateway.request) (now : datetime) (s : Gateway.state)
    (file : Gateway.FileStorage) :
  staged r file now ->
  Image_probe (Gateway.data file) = None ->
  snd (upload r now s) = inr (Gateway.failure "Invalid image file", 400)
  /\ Gateway.uploads (fst (upload r now s)) !! staged_path file now = None
  /\ (forall p, p <> staged_path file now ->
        Gateway.uploads (fst (upload r now s)) !! p = Gateway.uploads s !! p)
  /\ Gateway.sent (fst (upload r now s)) = Gateway.sent s.
Proof.
  intros Hacc Hprobe. rewrite (upload_accepted r now s file Hacc).
  cbv zeta. rewrite Hprobe. cbn [fst snd Gateway.uploads Gateway.sent].
  split; [done |]. split; [apply lookup_delete_eq |]. split; [| done].
  intros p Hp. by rewrite lookup_delete_ne, lookup_insert_ne.
Qed.

(** C8, as the code has it.  A request without the file field, with an
    empty file name or with an extension outside the allow-list is answered
    with 400; such a request, and a request above the size ceiling, stages no
    file and makes no call to the detection service. *)
Theorem violating_upload_is_rejected
    (r : Gateway.request) (now : datetime) (s : Gateway.state) :
  Gateway.MAX_CONTENT_LENGTH < Gateway.content_length r
  \/ Gateway.files r !! "image" = None
  \/ (exists file, Gateway.files r !! "image" = Some file
        /\ (Gateway.filename file = ""
            \/ Gateway.allowed_file (Gateway.filename file) = false)) ->
  fst (upload r now s) = s
  /\ (Gateway.content_length r <= Gateway.MAX_CONTENT_LENGTH ->
      exists message,
        snd (upload r now s) = inr (Gateway.failure message, 400)).
Proof.
  intros Hbad.
  cbv [Gateway.upload try_except bind lift ret Gateway.request_files].
  destruct (Gateway.MAX_CONTENT_LENGTH <? Gateway.content_length r) eqn:Hlen.
  { apply Z.ltb_lt in Hlen. split; [done | lia]. }
  apply Z.ltb_ge in Hlen.
  destruct Hbad as [Hbig | [Hnone | (file & Hfile & Hbad)]]; [lia | |].
  - rewrite Hnone. eauto.
  - rewrite Hfile. destruct Hbad as [-> | Hext].
    + cbn. eauto.
    + rewrite Hext. destruct (String.eqb _ ""); cbn; eauto.
Qed.

(** C5, as the code has it.  For a request that is staged and decodes: one
    call is made to the detection service, and
    - a reply with status 200 whose body is a JSON object that has a
      [detections_count], or whose [detections], if any, has a length, is
      passed through with status 200, the fields [success], [image_name] and
      [detections_count] added when absent; every field the service sent
      keeps its value;
    - a reply with any other status, 2xx or not, is answered with that
      status and the body [{success: false, error: "AI backend error: ..."}];
    - a timeout, also a connect timeout, gives 504;
    - a connection error that is not a timeout gives 503;
    - any other exception gives 500, and so does a 200 reply whose body is
      no JSON, or no JSON object, or has no [detections_count] and
      [detections] without a length. *)
Theorem upload_maps_upstream_outcome
    (r : Gateway.request) (now : datetime) (s : Gateway.state)
    (file : Gateway.FileStorage) (info : string * (Z * Z)) :
  staged r file now ->
  Image_probe (Gateway.data file) = Some info ->
  let name := secure_filename (Gateway.filename file) in
  let outcome := requests_post (detect_call file) in
  let reply := snd (upload r now s) in
  Gateway.sent (fst (upload r now s)) = Gateway.sent s ++ [detect_call file]
  /\ (forall resp d,
        outcome = inr resp -> Gateway.status_code resp = 200 ->
        Gateway.json_body resp = Some (JObj d) ->
        Dict.mem "detections_count" d = true
        \/ is_return (Gateway.len (default (JArr []) (Dict.get "detections" d)))
           = true ->
        exists d',
          reply = inr (JObj d', 200)
          /\ (forall k x, Dict.get k d = Some x -> Dict.get k d' = Some x)
          /\ (forall k, k <> "success" -> k <> "image_name" ->
                k <> "detections_count" -> Dict.get k d' = Dict.get k d)
          /\ Dict.mem "success" d' = true
          /\ Dict.mem "image_name" d' = true
          /\ Dict.mem "detections_count" d' = true)
  /\ (forall resp,
        outcome = inr resp -> Gateway.status_code resp <> 200 ->
        reply = inr (Gateway.failure
                       ("AI backend error: " +:+ Gateway.text resp),
                     Gateway.status_code resp))
  /\ (forall e,
        outcome = inl e -> Gateway.is_Timeout e = true ->
        reply = inr (Gateway.failure "AI backend request timeout", 504))
  /\ (forall e,
        outcome = inl e -> Gateway.is_Timeout e = false ->
        Gateway.is_ConnectionError e = true ->
        reply = inr (Gateway.failure
                       "Cannot connect to AI backend service. Please ensure it's running.",
                     503))
  /\ (forall e,
        outcome = inl e -> Gateway.is_Timeout e = false ->
        Gateway.is_ConnectionError e = false ->
        reply = inr (Gateway.failure
                       ("Error communicating with AI backend: "
                        +:+ Gateway.str e), 500))
  /\ (forall resp,
        outcome = inr resp -> Gateway.status_code resp = 200 ->
        match Gateway.json_body resp with
        | Some (JObj d) =>
            Dict.mem "detections_count" d = false
            /\ is_return (Gateway.len (default (JArr [])
                                         (Dict.get "detections" d))) = false
        | _ => True
        end ->
        exists message,
          reply = inr (Gateway.failure
                         ("Error communicating with AI backend: " +:+ message),
                       500)).
Proof.
  intros Hacc Hprobe name outcome reply. subst name outcome reply.
  rewrite (upload_accepted r now s file Hacc). cbv zeta. rewrite Hprobe.
  edestruct (forward_staged (secure_filename (Gateway.filename file))
               (staged_path file now) file) as [-> ->].
  { cbn. apply lookup_insert_eq. }
  change (Gateway.Build_posted _ _ _ _) with (detect_call file).
  split; [done |].
  split.
  { intros resp d -> H200 -> Hcount. apply Z.eqb_eq in H200. rewrite H200.
    pose proof (fill_defaults_returns
                  (secure_filename (Gateway.filename file)) d) as Hret.
    destruct (Gateway.fill_defaults _ d) as [e|d'] eqn:Hfill.
    { cbn in Hret. symmetry in Hret.
      apply orb_false_iff in Hret as [Hm Hl].
      destruct Hcount; congruence. }
    exists d'. split; [done |].
    split; [eauto using fill_defaults_keeps |].
    split; [eauto using fill_defaults_only |].
    eauto using fill_defaults_fills. }
  split.
  { intros resp -> Hne. apply Z.eqb_neq in Hne. by rewrite Hne. }
  split; [by intros e -> -> |].
  split; [by intros e -> -> -> |].
  split; [by intros e -> -> -> |].
  intros resp -> H200 Hbody. apply Z.eqb_eq in H200. rewrite H200.
  destruct (Gateway.json_body resp) as [[| | | | | |d]|]; eauto.
  pose proof (fill_defaults_returns
                (secure_filename (Gateway.filename file)) d) as Hret.
  destruct Hbody as [Hm Hl]. rewrite Hm, Hl in Hret.
  destruct (Gateway.fill_defaults _ d); [eauto | discriminate].
Qed.

End GatewayFacts.

(** An empty file named [cat.png] is staged, rejected and removed. *)
Lemma corrupt_upload_is_rejected_and_removed_witness :
  snd (Gateway.upload Samples.secure Samples.probe Samples.disk Samples.backend
         (Samples.answers Samples.created)
         Samples.corrupt_upload Samples.noon Samples.idle)
  = inr (Gateway.failure "Invalid image file", 400)
  /\ Gateway.uploads
       (fst (Gateway.upload Samples.secure Samples.probe Samples.disk
               Samples.backend (Samples.answers Samples.created)
               Samples.corrupt_upload Samples.noon Samples.idle))
     !! "static/uploads/20240102_120000_cat.png" = None.
Proof.
  destruct (corrupt_upload_is_rejected_and_removed Samples.secure
              Samples.probe Samples.disk Samples.backend
              (Samples.answers Samples.created)
              Samples.corrupt_upload Samples.noon Samples.idle
              Samples.corrupt_file)
    as (Hreply & Hgone & _).
  - split; [| by vm_compute].
    unfold Gateway.accepted. split; [by vm_compute |].
    split; [by vm_compute |]. split; [discriminate | reflexivity].
  - reflexivity.
  - split; [exact Hreply | exact Hgone].
Defined.

(** C7, as the specification states it, fails: a corrupt [cat.png] above
    the size ceiling is answered with 500; and so is a corrupt upload whose
    staged name is too long for the file system, for which nothing is staged
    at all. *)
Lemma corrupt_upload_can_get_500 :
  Gateway.allowed_file "cat.png" = true
  /\ Gateway.allowed_file Samples.long_name = true
  /\ Samples.probe [] = None
  /\ snd (Gateway.upload Samples.secure Samples.probe Samples.disk Samples.backend
            (Samples.answers Samples.created)
            Samples.huge_corrupt_upload Samples.noon Samples.idle)
     = inr (Gateway.failure
              "Internal server error: 413 Request Entity Too Large: The data value transmitted exceeds the capacity limit.",
            500)
  /\ Gateway.accepted Samples.long_corrupt_upload Samples.long_corrupt_file
  /\ (exists message,
        snd (Gateway.upload Samples.secure Samples.probe Samples.disk
               Samples.backend (Samples.answers Samples.created)
               Samples.long_corrupt_upload Samples.noon Samples.idle)
        = inr (Gateway.failure ("Internal server error: [Errno 36] " +:+ message),
               500))
  /\ size (Gateway.uploads
             (fst (Gateway.upload Samples.secure Samples.probe Samples.disk
                     Samples.backend (Samples.answers Samples.created)
                     Samples.long_corrupt_upload Samples.noon Samples.idle)))
     = 0%nat.
Proof.
  split; [by vm_compute |]. split; [by vm_compute |].
  split; [reflexivity |]. split; [by vm_compute |].
  split.
  { unfold Gateway.accepted. split; [by vm_compute |].
    split; [by vm_compute |]. split; [discriminate | by vm_compute]. }
  split; [| by vm_compute].
  eexists. vm_compute. reflexivity.
Qed.

(** [notes.txt] is rejected and leaves the gateway as it was. *)
Lemma violating_upload_is_rejected_witness :
  fst (Gateway.upload Samples.secure Samples.probe Samples.disk Samples.backend
         (Samples.answers Samples.created)
         Samples.txt_upload Samples.noon Samples.idle) = Samples.idle
  /\ exists message,
       snd (Gateway.upload Samples.secure Samples.probe Samples.disk
              Samples.backend (Samples.answers Samples.created)
              Samples.txt_upload Samples.noon Samples.idle)
       = inr (Gateway.failure message, 400).
Proof.
  destruct (violating_upload_is_rejected Samples.secure Samples.probe
              Samples.disk Samples.backend (Samples.answers Samples.created)
              Samples.txt_upload Samples.noon Samples.idle)
    as [Hstate Hreply].
  - right. right. eexists. split; [by vm_compute |]. right. reflexivity.
  - split; [exact Hstate |]. apply Hreply. by vm_compute.
Defined.

(** C8, as the specification states it, fails: a request one byte above
    16 MiB is answered with status 500, not 400. *)
Lemma oversize_upload_gets_500 :
  Gateway.MAX_CONTENT_LENGTH < Gateway.content_length Samples.huge_upload
  /\ snd (Gateway.upload Samples.secure Samples.probe Samples.disk Samples.backend
            (Samples.answers Samples.created)
            Samples.huge_upload Samples.noon Samples.idle)
     = inr (Gateway.failure
              "Internal server error: 413 Request Entity Too Large: The data value transmitted exceeds the capacity limit.",
            500).
Proof. split; by vm_compute. Qed.

(** A 200 reply without [image_name] and [detections_count] gets both. *)
Lemma upload_maps_upstream_outcome_witness :
  exists d',
    snd (Gateway.upload Samples.secure Samples.probe Samples.disk Samples.backend
           (Samples.answers Samples.partial_ok)
           Samples.cat_upload Samples.noon Samples.idle)
    = inr (JObj d', 200)
    /\ Dict.get "detections" d' = Some (JArr [JNull; JNull])
    /\ Dict.mem "image_name" d' = true
    /\ Dict.mem "detections_count" d' = true.
Proof.
  destruct (upload_maps_upstream_outcome Samples.secure Samples.probe
              Samples.disk Samples.backend (Samples.answers Samples.partial_ok)
              Samples.cat_upload Samples.noon Samples.idle
              Samples.cat_file ("PNG", (640, 480)))
    as (_ & Hok & _).
  - split; [| by vm_compute].
    unfold Gateway.accepted. split; [by vm_compute |].
    split; [by vm_compute |]. split; [discriminate | reflexivity].
  - reflexivity.
  - destruct (Hok Samples.partial_ok
                [ ("success", JBool true); ("detections", JArr [JNull; JNull]) ]
                eq_refl eq_refl eq_refl (or_intror eq_refl))
      as (d' & Hreply & Hkeep & _ & _ & Hname & Hcount).
    exists d'. split; [exact Hreply |].
    split; [apply Hkeep; reflexivity |]. split; [exact Hname | exact Hcount].
Defined.

(** C5, as the specification states it, fails: a reply with status 201 is
    not passed through but answered with the error body and status 201; a
    200 reply whose [detections] is a number and that has no
    [detections_count] is answered with 500; and a connect timeout, which is
    a connection error, gives 504 and not 503. *)
Lemma created_reply_is_not_passed_through :
  Gateway.staged Samples.secure Samples.disk Samples.cat_upload Samples.cat_file
    Samples.noon
  /\ Gateway.json_body Samples.created = Some (JObj [("success", JBool true)])
  /\ snd (Gateway.upload Samples.secure Samples.probe Samples.disk Samples.backend
            (Samples.answers Samples.created)
            Samples.cat_upload Samples.noon Samples.idle)
     = inr (Gateway.failure "AI backend error: created", 201)
  /\ Gateway.json_body Samples.numbered = Some (JObj [("detections", JInt 5)])
  /\ snd (Gateway.upload Samples.secure Samples.probe Samples.disk Samples.backend
            (Samples.answers Samples.numbered)
            Samples.cat_upload Samples.noon Samples.idle)
     = inr (Gateway.failure
              "Error communicating with AI backend: object of type 'int' has no len()",
            500)
  /\ Gateway.is_ConnectionError (Gateway.ConnectTimeout "timed out") = true
  /\ snd (Gateway.upload Samples.secure Samples.probe Samples.disk Samples.backend
            (Samples.fails (Gateway.ConnectTimeout "timed out"))
            Samples.cat_upload Samples.noon Samples.idle)
     = inr (Gateway.failure "AI backend request timeout", 504).
Proof.
  split.
  { split; [| by vm_compute].
    unfold Gateway.accepted. split; [by vm_compute |].
    split; [by vm_compute |]. split; [discriminate | reflexivity]. }
  repeat split; by vm_compute.
Qed.

(** * Further properties of the detection service *)

(** X1.  [parse_results] keeps the number and the order of the model's rows:
    the detection at position [i] carries the identifier [i + 1], the class
    name of row [i] and its confidence rounded to 4 decimals; no row gives no
    detection. *)
Theorem parse_results_in_order (predictions : list Detector.row) :
  length (Detector.parse_results predictions) = length predictions
  /\ (forall i r, predictions !! i = Some r ->
        exists d, Detector.parse_results predictions !! i = Some d
          /\ field "object_id" d = Some (JInt (Z.of_nat i + 1))
          /\ field "class" d = Some (JStr (Detector.name r))
          /\ field "confidence" d
             = Some (JFloat (PyFloat.round (Detector.confidence r) 4)))
  /\ (forall i, predictions !! i = None ->
        Detector.parse_results predictions !! i = None).
Proof.
  unfold Detector.parse_results. split; [apply length_imap |]. split.
  - intros i r Hr. rewrite list_lookup_imap, Hr. cbn. eauto.
  - intros i Hr. by rewrite list_lookup_imap, Hr.
Qed.

Section DetectorMore.

Variable Image_open : list Byte.byte -> Detector.exn + Detector.image.
Variable model : option (Detector.image -> Detector.exn + Detector.results).

#[local] Abbreviation detect_objects :=
  (Detector.detect_objects Image_open model).

Ltac run_detect :=
  cbv [Detector.detect_objects Detector.detect_body try_except bind
       lift raise ret Detector.save Detector.dump Detector.JSONResponse modify];
  repeat case_match; intros; simplify_eq.

(** X2.  The body of a success has the eight fields of the response in
    their order, says [success: true] and names the upload; its
    [detections_count] is the length of its [detections], one per row the
    model returned. *)
Theorem success_body_counts_detections
    (f : Detector.UploadFile) (w : Detector.world)
    (fs fs' : Detector.store) (body : json) :
  detect_objects f w fs = (fs', inr body) ->
  exists (d : Dict.t) (dets : list json),
    body = JObj d
    /\ map fst d = [ "success"; "image_name"; "image_size"; "detections_count";
                     "detections"; "result_image"; "timestamp"; "result_json" ]
    /\ Dict.get "success" d = Some (JBool true)
    /\ Dict.get "image_name" d = Some (JStr (Detector.filename f))
    /\ Dict.get "detections" d = Some (JArr dets)
    /\ Dict.get "detections_count" d = Some (JInt (Z.of_nat (length dets)))
    /\ exists net im res,
         model = Some net
         /\ Image_open (Detector.contents f) = inr im
         /\ net (Detector.to_rgb im) = inr res
         /\ dets = Detector.parse_results (Detector.xyxy res)
         /\ length dets = length (Detector.xyxy res).
Proof.
  intros (net & ct & im & res & Hm & _ & _ & Him & Hres & _ & ->)%detect_success.
  do 2 eexists. split; [reflexivity |].
  repeat (split; [reflexivity |]).
  exists net, im, res. repeat split; try done.
  apply length_imap.
Qed.

(** X3.  [detect_objects] answers with 200, 500 or 503 and nothing else;
    with 503 exactly when the model is not loaded, and then it has written
    nothing; and what it raises is always an [HTTPException]. *)
Theorem detect_status_is_200_500_or_503
    (f : Detector.UploadFile) (w : Detector.world) (fs : Detector.store) :
  let r := snd (detect_objects f w fs) in
  (Detector.status r = 200 \/ Detector.status r = 500 \/ Detector.status r = 503)
  /\ (Detector.status r = 503 <-> model = None)
  /\ (model = None -> fst (detect_objects f w fs) = fs)
  /\ (forall e, r = inl e ->
        exists status_code detail, e = Detector.HTTPException status_code detail).
Proof.
  cbv zeta.
  destruct (detect_objects f w fs) as [fs' r] eqn:Hrun. revert Hrun.
  run_detect; cbn;
    (split; [auto |]); (split; [split; [discriminate || done | done] |]);
    (split; [done |]); intros; simplify_eq; eauto.
Qed.

Lemma detect_touches_only_its_artifacts_aux
    (f : Detector.UploadFile) (w : Detector.world) (fs : Detector.store)
    (p : string) :
  p <> Detector.path Detector.IMAGES_DIR (Detector.result_filename_img f w) ->
  p <> Detector.path Detector.JSON_DIR (Detector.result_filename_json f w) ->
  fst (detect_objects f w fs) !! p = fs !! p.
Proof.
  intros Himg Hjs.
  destruct (detect_objects f w fs) as [fs' r] eqn:Hrun. revert Hrun.
  run_detect; cbn; by rewrite ?lookup_insert_ne.
Qed.

(** X4.  Whatever its outcome, [detect_objects] leaves every file other
    than its two artifacts as it was, and it never deletes a file. *)
Theorem detect_touches_only_its_artifacts
    (f : Detector.UploadFile) (w : Detector.world) (fs : Detector.store)
    (p : string) :
  p <> Detector.path Detector.IMAGES_DIR (Detector.result_filename_img f w) ->
  p <> Detector.path Detector.JSON_DIR (Detector.result_filename_json f w) ->
  fst (detect_objects f w fs) !! p = fs !! p
  /\ dom fs ⊆ dom (fst (detect_objects f w fs)).
Proof.
  intros Himg Hjs. split; [by apply detect_touches_only_its_artifacts_aux |].
  destruct (detect_objects f w fs) as [fs' r] eqn:Hrun. revert Hrun.
  run_detect; cbn; rewrite ?dom_insert_L; set_solver.
Qed.

(** A results tree that holds only artifacts still does after a request. *)
Lemma detect_keeps_only_artifacts
    (f : Detector.UploadFile) (w : Detector.world) (fs : Detector.store) :
  Detector.only_artifacts fs ->
  Detector.only_artifacts (fst (detect_objects f w fs)).
Proof.
  intros Hfs k.
  destruct (decide (k = Detector.path Detector.IMAGES_DIR
                          (Detector.result_filename_img f w))) as [-> | Himg];
    [eauto |].
  destruct (decide (k = Detector.path Detector.JSON_DIR
                          (Detector.result_filename_json f w))) as [-> | Hjs];
    [eauto |].
  rewrite detect_touches_only_its_artifacts_aux by done. apply Hfs.
Qed.

End DetectorMore.

(** ** Retrieving the artifacts *)

Section Retrieval.

Variable Image_open : list Byte.byte -> Detector.exn + Detector.image.
Variable model : option (Detector.image -> Detector.exn + Detector.results).

#[local] Abbreviation detect_objects :=
  (Detector.detect_objects Image_open model).

(** No artifact lies where [get_result_image] looks for a [result_...]
    name. *)
Lemma artifact_is_not_under_results (x rest : string) (k : string) :
  k = Detector.path Detector.IMAGES_DIR x
  \/ k = Detector.path Detector.JSON_DIR x ->
  let p := Detector.path Detector.RESULTS_DIR ("result_" +:+ rest) in
  String.eqb k p || Py.startswith (p +:+ "/") k = false.
Proof. intros [-> | ->]; reflexivity. Qed.

(** X6.  [get_result_image] does not find the artifacts: in a results tree
    that holds only artifacts, after any request, asking [/results/<name>]
    for the image or the JSON name of any request is answered with 404. *)
Theorem get_result_image_misses_artifacts
    (f f' : Detector.UploadFile) (w w' : Detector.world) (fs : Detector.store) :
  Detector.only_artifacts fs ->
  let fs' := fst (detect_objects f w fs) in
  Detector.get_result_image fs' (Detector.result_filename_img f' w')
  = inl (Detector.HTTPException 404 "Result image not found")
  /\ Detector.get_result_image fs' (Detector.result_filename_json f' w')
     = inl (Detector.HTTPException 404 "Result image not found").
Proof.
  intros Hfs%(detect_keeps_only_artifacts Image_open model f w) fs'.
  subst fs'.
  assert (forall rest,
    Detector.exists_path (fst (detect_objects f w fs))
      (Detector.path Detector.RESULTS_DIR ("result_" +:+ rest)) = false) as Hno.
  { intros rest. unfold Detector.exists_path.
    apply not_true_iff_false. intros (k & Hk & Htest)%existsb_exists.
    apply list_elem_of_In, elem_of_elements, elem_of_dom, Hfs in Hk as [x Hk].
    by rewrite (artifact_is_not_under_results x rest k Hk) in Htest. }
  unfold Detector.get_result_image, Detector.result_filename_img,
    Detector.result_filename_json.
  by rewrite !Hno.
Qed.

(** X7.  The readiness probe and the detect endpoint agree: [health_check]
    reports [model_loaded: false] exactly when [detect_objects] answers 503. *)
Theorem health_check_agrees_with_detect
    (gpu_available : bool)
    (f : Detector.UploadFile) (w : Detector.world) (fs : Detector.store) :
  field "model_loaded" (Detector.health_check model gpu_available)
  = Some (JBool false)
  <-> Detector.status (snd (detect_objects f w fs)) = 503.
Proof.
  destruct (detect_objects f w fs) as [fs' r] eqn:Hrun. revert Hrun.
  cbv [Detector.detect_objects Detector.detect_body try_except bind
       lift raise ret Detector.save Detector.dump Detector.JSONResponse modify].
  repeat case_match; intros; simplify_eq; cbn; split; done.
Qed.

End Retrieval.

(** * Further properties of the gateway *)

(** X8.  [allowed_file] accepts exactly the names [base.ext] whose part
    after the last dot, in lower case, is on the allow-list; what comes before
    that dot, other dots included, plays no part. *)
Theorem allowed_file_iff (filename : string) :
  Gateway.allowed_file filename = true
  <-> exists base ext,
        filename = base +:+ "." +:+ ext
        /\ Py.contains "." ext = false
        /\ Py.lower ext ∈ Gateway.ALLOWED_EXTENSIONS.
Proof.
  split.
  - intros Hok. pose proof Hok as Hdot.
    unfold Gateway.allowed_file in Hdot.
    apply andb_true_iff in Hdot as [Hdot _].
    destruct (Py.rindex "." filename) as [i|] eqn:Hi.
    + apply rindex_Some in Hi as (a & b & -> & _ & Hb).
      exists a, b. split; [done |]. split; [done |].
      change (String "." b) with ("." +:+ b) in Hok.
      rewrite allowed_file_ext in Hok by done.
      by apply bool_decide_eq_true in Hok.
    + apply rindex_None in Hi. congruence.
  - intros (base & ext & -> & Hext & Hin).
    rewrite allowed_file_ext by done. by apply bool_decide_eq_true.
Qed.

Section GatewayMore.

Variable secure_filename : string -> string.
Variable Image_probe : list Byte.byte -> option (string * (Z * Z)).
Variable file_save : string -> list Byte.byte -> option Gateway.exn.
Variable AI_BACKEND_URL : string.
Variable requests_post : Gateway.posted -> Gateway.exn + Gateway.Response.

#[local] Abbreviation upload :=
  (Gateway.upload secure_filename Image_probe file_save AI_BACKEND_URL
     requests_post).
#[local] Abbreviation forward :=
  (Gateway.forward AI_BACKEND_URL requests_post).
#[local] Abbreviation staged_path := (Gateway.staged_path secure_filename).

(** The requests [upload] turns down before it stages anything. *)
Lemma upload_refused (r : Gateway.request) (now : datetime) (s : Gateway.state) :
  (forall file, ~ Gateway.accepted r file) ->
  fst (upload r now s) = s
  /\ exists message status,
       snd (upload r now s) = inr (Gateway.failure message, status)
       /\ (status = 400 \/ status = 500).
Proof.
  intros Hno.
  cbv [Gateway.upload try_except bind lift ret Gateway.request_files].
  destruct (Gateway.MAX_CONTENT_LENGTH <? Gateway.content_length r) eqn:Hlen;
    [eauto 6 |].
  apply Z.ltb_ge in Hlen.
  destruct (Gateway.files r !! "image") as [file|] eqn:Hfile; [| eauto 6].
  destruct (String.eqb_spec (Gateway.filename file) "") as [Hname | Hname];
    [eauto 6 |].
  destruct (Gateway.allowed_file (Gateway.filename file)) eqn:Hext;
    [| cbn; eauto 6].
  by destruct (Hno file).
Qed.

(** A request is accepted with its file, or with none. *)
Lemma accepted_or_not (r : Gateway.request) :
  (exists file, Gateway.accepted r file) \/ (forall file, ~ Gateway.accepted r file).
Proof.
  unfold Gateway.accepted.
  destruct (Gateway.files r !! "image") as [file|] eqn:Hfile;
    [| right; intros file (_ & [=] & _)].
  destruct (decide (Gateway.content_length r <= Gateway.MAX_CONTENT_LENGTH));
    [| right; intros file' (? & _); done].
  destruct (decide (Gateway.filename file = ""));
    [right; intros file' (_ & [= <-] & ? & _); done |].
  destruct (Gateway.allowed_file (Gateway.filename file)) eqn:Hext;
    [| right; intros file' (_ & [= <-] & _ & ?); congruence].
  left. by exists file.
Qed.

(** X9.  [upload] never lets an exception out: it always answers with a
    JSON body and a status.  With status 200 the body is an object that has
    the fields [success], [image_name] and [detections_count]; with any other
    status it is [{"success": false, "error": message}]. *)
Theorem upload_always_replies
    (r : Gateway.request) (now : datetime) (s : Gateway.state) :
  exists body status,
    snd (upload r now s) = inr (body, status)
    /\ ((status = 200
         /\ exists d, body = JObj d
              /\ Dict.mem "success" d = true
              /\ Dict.mem "image_name" d = true
              /\ Dict.mem "detections_count" d = true)
        \/ (status <> 200 /\ exists message, body = Gateway.failure message)).
Proof.
  destruct (accepted_or_not r) as [[file Hacc] | Hno].
  2: { destruct (upload_refused r now s Hno)
         as (_ & message & status & -> & [-> | ->]); eauto 10. }
  destruct (file_save (staged_path file now) (Gateway.data file))
    as [e|] eqn:Hsave.
  { rewrite (upload_save_fails _ _ _ _ _ r now s file e Hacc Hsave). eauto 10. }
  rewrite (upload_accepted _ _ _ _ _ r now s file (conj Hacc Hsave)). cbv zeta.
  destruct (Image_probe (Gateway.data file)) as [info|]; [| eauto 10].
  edestruct (forward_staged AI_BACKEND_URL requests_post
               (secure_filename (Gateway.filename file))
               (staged_path file now) file) as [_ ->].
  { cbn. apply lookup_insert_eq. }
  destruct (requests_post _) as [e|resp].
  { destruct (Gateway.is_Timeout e), (Gateway.is_ConnectionError e); eauto 10. }
  destruct (Gateway.status_code resp =? 200) eqn:H200.
  2: { apply Z.eqb_neq in H200. eauto 10. }
  destruct (Gateway.json_body resp) as [[| | | | | |d]|]; eauto 10.
  destruct (Gateway.fill_defaults _ d) as [e|d'] eqn:Hfill; [eauto 10 |].
  apply fill_defaults_fills in Hfill. eauto 10.
Qed.

(** X10.  One [upload] makes at most one call to the detection service (no
    retry on any outcome), and in the staging directory it touches at most
    the path it stages its file under. *)
Theorem upload_calls_once_and_touches_one_path
    (r : Gateway.request) (now : datetime) (s : Gateway.state) :
  let s' := fst (upload r now s) in
  (Gateway.sent s' = Gateway.sent s
   \/ exists p, Gateway.sent s' = Gateway.sent s ++ [p])
  /\ (forall p,
        (forall file, Gateway.files r !! "image" = Some file ->
                      p <> staged_path file now) ->
        Gateway.uploads s' !! p = Gateway.uploads s !! p).
Proof.
  cbv zeta.
  destruct (accepted_or_not r) as [[file Hacc] | Hno].
  2: { destruct (upload_refused r now s Hno) as [-> _]. auto. }
  destruct (file_save (staged_path file now) (Gateway.data file))
    as [e|] eqn:Hsave.
  { rewrite (upload_save_fails _ _ _ _ _ r now s file e Hacc Hsave). auto. }
  rewrite (upload_accepted _ _ _ _ _ r now s file (conj Hacc Hsave)). cbv zeta.
  destruct Hacc as (_ & Hfile & _).
  destruct (Image_probe (Gateway.data file)) as [info|].
  - edestruct (forward_staged AI_BACKEND_URL requests_post
                 (secure_filename (Gateway.filename file))
                 (staged_path file now) file) as [-> _].
    { cbn. apply lookup_insert_eq. }
    cbn. split; [eauto |].
    intros p Hp. by rewrite lookup_insert_ne by (symmetry; eauto).
  - cbn. split; [auto |].
    intros p Hp.
    by rewrite lookup_delete_ne, lookup_insert_ne by (symmetry; eauto).
Qed.

(** X11.  When the file of an accepted upload was written to the staging
    directory and decodes, it stays there whatever the detection service
    answers, with the bytes of the upload and under the name
    [<timestamp>_<sanitized name>]: splitting the sanitized name into base
    and extension and joining them again changes nothing. *)
Theorem staged_file_stays
    (r : Gateway.request) (now : datetime) (s : Gateway.state)
    (file : Gateway.FileStorage) (info : string * (Z * Z)) :
  Gateway.staged secure_filename file_save r file now ->
  Image_probe (Gateway.data file) = Some info ->
  staged_path file now
  = Gateway.UPLOAD_FOLDER +:+ "/" +:+ strftime_stamp now +:+ "_"
    +:+ secure_filename (Gateway.filename file)
  /\ Gateway.uploads (fst (upload r now s)) !! staged_path file now
     = Some (Gateway.data file).
Proof.
  intros Hacc Hprobe. split.
  - unfold Gateway.staged_path. by rewrite splitext_app.
  - rewrite (upload_accepted _ _ _ _ _ r now s file Hacc). cbv zeta.
    rewrite Hprobe.
    edestruct (forward_staged AI_BACKEND_URL requests_post
                 (secure_filename (Gateway.filename file))
                 (staged_path file now) file) as [-> _].
    { cbn. apply lookup_insert_eq. }
    cbn. apply lookup_insert_eq.
Qed.

End GatewayMore.

(** X12.  [fill_defaults] is idempotent: what it returns already has the
    three fields and passes through it unchanged, whatever the file name. *)
Theorem fill_defaults_idempotent (name name' : string) (d d' : Dict.t) :
  Gateway.fill_defaults name d = inr d' ->
  Gateway.fill_defaults name' d' = inr d'.
Proof.
  intros (H1 & H2 & H3)%fill_defaults_fills.
  unfold Gateway.fill_defaults. cbv zeta.
  rewrite H1. cbn [negb]. rewrite H2. cbn [negb]. by rewrite H3.
Qed.

(** X13.  When the reply has no [detections_count], the gateway counts the
    [detections] itself: the length of the list, and 0 when there is no
    [detections] field either. *)
Theorem fill_defaults_counts_detections (name : string) (d : Dict.t) :
  Dict.get "detections_count" d = None ->
  (forall items, Dict.get "detections" d = Some (JArr items) ->
     exists d', Gateway.fill_defaults name d = inr d'
       /\ Dict.get "detections_count" d'
          = Some (JInt (Z.of_nat (length items))))
  /\ (Dict.get "detections" d = None ->
      exists d', Gateway.fill_defaults name d = inr d'
        /\ Dict.get "detections_count" d' = Some (JInt 0)).
Proof.
  intros Hcount.
  assert (forall v, Dict.get "detections" d = v ->
    exists d0,
      Gateway.fill_defaults name d
      = match Gateway.len (default (JArr []) v) with
        | inr n => inr (Dict.set "detections_count" (JInt n) d0)
        | inl e => inl e
        end) as Hrun.
  { intros v <-. unfold Gateway.fill_defaults.
    destruct (Dict.mem "success" d); cbn [negb];
      destruct (Dict.mem "image_name" _); cbn [negb];
      unfold Dict.mem;
      rewrite ?get_after_set_other by done; rewrite Hcount; cbn [negb];
      rewrite ?get_after_set_other by done; eauto. }
  split.
  - intros items Hitems. destruct (Hrun _ Hitems) as [d0 ->]. cbn.
    eexists. split; [done |]. apply get_after_set.
  - intros Hnone. destruct (Hrun _ Hnone) as [d0 ->]. cbn.
    eexists. split; [done |]. apply get_after_set.
Qed.

(** X14.  The gateway's [health] answers 200 and [status: healthy] whatever
    the detection service does.  Its [ai_backend] field is the service's own
    answer when that has status 200 and is JSON; in every other case, an
    exception included, it says [status: unreachable]. *)
Theorem health_is_always_healthy
    (requests_get : Gateway.exn + Gateway.Response) (now : datetime) :
  snd (Gateway.health requests_get now) = 200
  /\ field "status" (fst (Gateway.health requests_get now))
     = Some (JStr "healthy")
  /\ (forall resp v,
        requests_get = inr resp -> Gateway.status_code resp = 200 ->
        Gateway.json_body resp = Some v ->
        field "ai_backend" (fst (Gateway.health requests_get now)) = Some v)
  /\ ((forall resp v,
         requests_get = inr resp -> Gateway.status_code resp = 200 ->
         Gateway.json_body resp <> Some v) ->
      subfield "ai_backend" "status" (fst (Gateway.health requests_get now))
      = Some (JStr "unreachable")).
Proof.
  split; [done |]. split; [done |]. split.
  - intros resp v -> H200 Hv. unfold Gateway.health.
    apply Z.eqb_eq in H200. by rewrite H200, Hv.
  - intros Hbad. unfold Gateway.health.
    destruct requests_get as [e|resp]; [done |].
    destruct (Gateway.status_code resp =? 200) eqn:H200; [| done].
    apply Z.eqb_eq in H200.
    destruct (Gateway.json_body resp) as [v|] eqn:Hv; [| done].
    by destruct (Hbad resp v).
Qed.

(** ** The further properties on the sample requests *)

(** The body of the sample run counts its one detection. *)
Lemma success_body_counts_detections_witness :
  exists (d : Dict.t) (dets : list json),
    Samples.cat_body = JObj d
    /\ Dict.get "detections" d = Some (JArr dets)
    /\ Dict.get "detections_count" d = Some (JInt (Z.of_nat (length dets)))
    /\ length dets = 1%nat.
Proof.
  destruct (success_body_counts_detections Samples.decode (Some Samples.net)
              Samples.cat_png Samples.calm ∅ (fst Samples.cat_run)
              Samples.cat_body)
    as (d & dets & Hbody & _ & _ & _ & Hdets & Hcount & net & im & res
        & [= <-] & _ & [= <-] & _ & Hlen).
  - apply (run_returned JNull Samples.cat_run). vm_compute. reflexivity.
  - exists d, dets. repeat split; [exact Hbody | exact Hdets | exact Hcount | exact Hlen].
Defined.

(** A file kept in the image directory survives the sample request. *)
Lemma detect_touches_only_its_artifacts_witness :
  fst (Detector.detect_objects Samples.decode (Some Samples.net)
         Samples.cat_png Samples.calm
         {[ "static/results/image/keep.jpg" := Detector.ImageFile [] ]})
  !! "static/results/image/keep.jpg"
  = ({[ "static/results/image/keep.jpg" := Detector.ImageFile [] ]}
       : Detector.store) !! "static/results/image/keep.jpg".
Proof.
  apply (detect_touches_only_its_artifacts Samples.decode (Some Samples.net)
           Samples.cat_png Samples.calm).
  - intros H. vm_compute in H. discriminate H.
  - intros H. vm_compute in H. discriminate H.
Defined.

(** After the sample run on an empty tree, [/results/<name>] finds neither
    artifact. *)
Lemma get_result_image_misses_artifacts_witness :
  Detector.get_result_image (fst Samples.cat_run)
    (Detector.result_filename_img Samples.cat_png Samples.calm)
  = inl (Detector.HTTPException 404 "Result image not found")
  /\ Detector.get_result_image (fst Samples.cat_run)
       (Detector.result_filename_json Samples.cat_png Samples.calm)
     = inl (Detector.HTTPException 404 "Result image not found").
Proof.
  apply (get_result_image_misses_artifacts Samples.decode (Some Samples.net)
           Samples.cat_png Samples.cat_png Samples.calm Samples.calm ∅).
  intros k [x Hx]. rewrite lookup_empty in Hx. discriminate Hx.
Defined.

(** The sample upload stays staged after a 201 reply. *)
Lemma staged_file_stays_witness :
  Gateway.staged_path Samples.secure Samples.cat_file Samples.noon
  = Gateway.UPLOAD_FOLDER +:+ "/" +:+ strftime_stamp Samples.noon +:+ "_"
    +:+ Samples.secure (Gateway.filename Samples.cat_file)
  /\ Gateway.uploads
       (fst (Gateway.upload Samples.secure Samples.probe Samples.disk Samples.backend
               (Samples.answers Samples.created)
               Samples.cat_upload Samples.noon Samples.idle))
     !! Gateway.staged_path Samples.secure Samples.cat_file Samples.noon
     = Some (Gateway.data Samples.cat_file).
Proof.
  apply (staged_file_stays Samples.secure Samples.probe Samples.disk Samples.backend
           (Samples.answers Samples.created)
           Samples.cat_upload Samples.noon Samples.idle
           Samples.cat_file ("PNG", (640, 480))).
  - split; [| by vm_compute].
    unfold Gateway.accepted. split; [by vm_compute |].
    split; [by vm_compute |]. split; [discriminate | reflexivity].
  - reflexivity.
Defined.

(** A body with [success] only, filled once and then again. *)
Lemma fill_defaults_idempotent_witness :
  Gateway.fill_defaults "dog.png"
    [ ("success", JBool true); ("image_name", JStr "cat.png");
      ("detections_count", JInt 0) ]
  = inr [ ("success", JBool true); ("image_name", JStr "cat.png");
          ("detections_count", JInt 0) ].
Proof.
  apply (fill_defaults_idempotent "cat.png" "dog.png"
           [ ("success", JBool true) ]).
  reflexivity.
Defined.

(** A body with two detections and no count. *)
Lemma fill_defaults_counts_detections_witness :
  exists d',
    Gateway.fill_defaults "cat.png" [ ("detections", JArr [JNull; JNull]) ]
    = inr d'
    /\ Dict.get "detections_count" d' = Some (JInt 2).
Proof.
  apply (proj1 (fill_defaults_counts_detections "cat.png"
                  [ ("detections", JArr [JNull; JNull]) ] eq_refl)
           [JNull; JNull]).
  reflexivity.
Defined.
